(** * CareBot: the caregiver dashboard and the position-change control engine

    The dashboard (carebot_dashboard/src/App.vue) is embedded from its source:
    its reactive state is a record, every handler is a function on that
    record that also returns the commands it issues (HTTP requests, dialogs,
    timers).  An [async] function is cut at its [await]s: the part that runs
    at the click and the part that runs when the awaited answer arrives are
    separate handlers, so other handlers may run in between, as in the
    browser.

    The control engine itself (carebot_core/main.py) is not part of the
    sources at hand; its safety monitor, motion planner and scheduler are
    modelled from the written specification and marked as such. *)

From Stdlib Require Import ZArith QArith Qabs List String Ascii Bool Lia.
From Stdlib Require Import DecimalString DecimalZ DecimalPos.
Import ListNotations.

Local Open Scope string_scope.
Local Open Scope Z_scope.

(* ================================================================== *)
(** ** JavaScript helpers used by the dashboard *)
(* ================================================================== *)

Module Js.

(** [String(n)] for an integer [n]: its decimal digits, with a minus sign
    in front when it is negative. *)
Definition String_of (n : Z) : string := NilZero.string_of_int (Z.to_int n).


(** [s.padStart(target, fill)] with a one-character [fill]. *)
Fixpoint repeat_char (c : ascii) (k : nat) : string :=
  match k with
  | O => EmptyString
  | S k' => String c (repeat_char c k')
  end.

Definition padStart (target : nat) (fill : ascii) (s : string) : string :=
  repeat_char fill (target - String.length s) ++ s.

(** [a.unshift(x)] and [a.pop()] on an array held as a list, index 0 first. *)
Definition unshift {A} (x : A) (a : list A) : list A := x :: a.
Definition pop {A} (a : list A) : list A := removelast a.

End Js.

(* ================================================================== *)
(** ** The dashboard *)
(* ================================================================== *)

Module Dashboard.

(** *** Data received from the server *)

(** The [next_rotation_time] field as [nextRotationCountdown] observes it:
    the code tests its truthiness and then hands it to [new Date(...)]. *)
Inductive TimeField :=
| Absent                 (* undefined, null or any other falsy value *)
| Unreadable             (* truthy, but [new Date] gives an invalid date *)
| Instant (ms : Z).      (* truthy, [new Date] gives this epoch time in ms *)

Record Status := {
  current_position : string;
  current_position_ko : string;
  next_rotation_time : TimeField;
  is_paused : bool;
  total_rotations : Z
}.

Record LogEntry := {
  time : string;
  level : string;
  message : string
}.

(** The [data] member of a message or of an API answer.  JavaScript does not
    type it: whatever arrives is stored. *)
Inductive Data :=
| DNull
| DStatus (s : Status)
| DLog (e : LogEntry)
| DText (t : string).

(** [d?.next_rotation_time] and [d?.is_paused]: a missing member reads as
    undefined, which is falsy. *)
Definition get_next_rotation_time (d : Data) : TimeField :=
  match d with
  | DStatus s => next_rotation_time s
  | _ => Absent
  end.

Definition get_is_paused (d : Data) : bool :=
  match d with
  | DStatus s => is_paused s
  | _ => false
  end.

Definition get_current_position (d : Data) : option string :=
  match d with
  | DStatus s => Some (current_position s)
  | _ => None
  end.

(** *** Reactive state (the [ref]s of the script) *)

Inductive Connection := connected | disconnected.

Record State := {
  status : Data;
  eventLogs : list Data;
  aiSummary : option string;
  connectionStatus : Connection;
  isMoving : bool;
  isEmergencyStopped : bool;
  isLoadingAi : bool;
  currentTime : string
}.

Definition initial : State := {|
  status := DNull;
  eventLogs := [];
  aiSummary := None;
  connectionStatus := disconnected;
  isMoving := false;
  isEmergencyStopped := false;
  isLoadingAi := false;
  currentTime := EmptyString
|}.

Definition set_status (d : Data) (st : State) : State :=
  {| status := d; eventLogs := eventLogs st; aiSummary := aiSummary st;
     connectionStatus := connectionStatus st; isMoving := isMoving st;
     isEmergencyStopped := isEmergencyStopped st;
     isLoadingAi := isLoadingAi st; currentTime := currentTime st |}.

Definition set_eventLogs (l : list Data) (st : State) : State :=
  {| status := status st; eventLogs := l; aiSummary := aiSummary st;
     connectionStatus := connectionStatus st; isMoving := isMoving st;
     isEmergencyStopped := isEmergencyStopped st;
     isLoadingAi := isLoadingAi st; currentTime := currentTime st |}.

Definition set_aiSummary (a : option string) (st : State) : State :=
  {| status := status st; eventLogs := eventLogs st; aiSummary := a;
     connectionStatus := connectionStatus st; isMoving := isMoving st;
     isEmergencyStopped := isEmergencyStopped st;
     isLoadingAi := isLoadingAi st; currentTime := currentTime st |}.

Definition set_connectionStatus (c : Connection) (st : State) : State :=
  {| status := status st; eventLogs := eventLogs st; aiSummary := aiSummary st;
     connectionStatus := c; isMoving := isMoving st;
     isEmergencyStopped := isEmergencyStopped st;
     isLoadingAi := isLoadingAi st; currentTime := currentTime st |}.

Definition set_isMoving (b : bool) (st : State) : State :=
  {| status := status st; eventLogs := eventLogs st; aiSummary := aiSummary st;
     connectionStatus := connectionStatus st; isMoving := b;
     isEmergencyStopped := isEmergencyStopped st;
     isLoadingAi := isLoadingAi st; currentTime := currentTime st |}.

Definition set_isEmergencyStopped (b : bool) (st : State) : State :=
  {| status := status st; eventLogs := eventLogs st; aiSummary := aiSummary st;
     connectionStatus := connectionStatus st; isMoving := isMoving st;
     isEmergencyStopped := b;
     isLoadingAi := isLoadingAi st; currentTime := currentTime st |}.

Definition set_isLoadingAi (b : bool) (st : State) : State :=
  {| status := status st; eventLogs := eventLogs st; aiSummary := aiSummary st;
     connectionStatus := connectionStatus st; isMoving := isMoving st;
     isEmergencyStopped := isEmergencyStopped st;
     isLoadingAi := b; currentTime := currentTime st |}.

Definition set_currentTime (t : string) (st : State) : State :=
  {| status := status st; eventLogs := eventLogs st; aiSummary := aiSummary st;
     connectionStatus := connectionStatus st; isMoving := isMoving st;
     isEmergencyStopped := isEmergencyStopped st;
     isLoadingAi := isLoadingAi st; currentTime := t |}.

(** *** WebSocket messages *)

(** What [ws.onmessage] (lines 289-303) gets.  [JSON.parse] throws on a frame that is not
    JSON, and reading [msg.type] throws when the parsed value is null; in both
    cases the handler ends before any assignment. *)
Inductive Frame :=
| Garbled
| Msg (type : string) (data : Data).

Definition onmessage (f : Frame) (st : State) : State :=
  match f with
  | Garbled => st
  | Msg type data =>
      if (type =? "initial_status")%string || (type =? "status_update")%string
      then set_status data st
      else if (type =? "alert")%string then
        let logs := Js.unshift data (eventLogs st) in
        let logs := if (100 <? Z.of_nat (List.length logs)) then Js.pop logs
                    else logs in
        set_eventLogs logs st
      else if (type =? "emergency_stop")%string then
        set_isMoving false (set_isEmergencyStopped true st)
      else st
  end.

Definition onopen (st : State) : State := set_connectionStatus connected st.
Definition onclose (st : State) : State := set_connectionStatus disconnected st.

(** *** The position list and the countdown *)

Record PositionItem := {
  value : string;
  nameKo : string;
  nameEn : string;
  emoji : string
}.

Definition positions : list PositionItem :=
  [ {| value := "supine"; nameKo := "앙와위"; nameEn := "Supine";
       emoji := "🛏️" |};
    {| value := "left_lateral"; nameKo := "좌측와위 (30°)";
       nameEn := "Left Lateral"; emoji := "↩️" |};
    {| value := "right_lateral"; nameKo := "우측와위 (30°)";
       nameEn := "Right Lateral"; emoji := "↪️" |} ].

(** [String(n).padStart(2, '0')] *)
Definition pad2 (n : Z) : string := Js.padStart 2 "0"%char (Js.String_of n).

(** [nextRotationCountdown] (App.vue, lines 264-272); [now] is the value of
    [Date.now()].  Dates are whole milliseconds, so the arithmetic is on
    integers.  With an invalid date every number is NaN, [String(NaN)] is
    the text NaN and [padStart(2, ...)] leaves a three-character string
    alone. *)
Definition nextRotationCountdown (now : Z) (st : State) : string :=
  match get_next_rotation_time (status st) with
  | Absent => "--:--"
  | field =>
      if get_is_paused (status st) then "⏸️ --:--"
      else match field with
           | Instant next =>
               let diff := Z.max 0 (next - now) in
               let mins := diff / 60000 in
               let secs := (diff mod 60000) / 1000 in
               pad2 mins ++ ":" ++ pad2 secs
           | _ => "NaN:NaN"
           end
  end.



(** *** Commands a handler issues *)

(** The body of a POST: none, the empty object of [pauseSchedule], or the
    position and reason of [rotateToPosition]. *)
Inductive Body :=
| NoBody
| EmptyObject
| Rotation (position : string) (reason : string).

Inductive Command :=
| Post (path : string) (body : Body)
| Get (path : string)
| ConfirmDialog
| AlertDialog (text : string)
| SetTimeout (ms : Z)         (* 20000: [rotate_timeout]; 5000: reconnection *)
| ConsoleError
| OpenSocket                  (* [new WebSocket(wsUrl)] *)
| CloseSocket                 (* [ws?.close()] *)
| SocketSend (text : string)  (* [ws.send(text)] *)
| SetInterval (ms : Z)
| ClearTimeout                (* [clearTimeout(reconnectTimer)] *)
| ClearInterval.

(** What an awaited [fetch(...)] followed by [res.json()] comes back with.
    [Failed]: the promise rejects (no connection, a body that is not JSON, or
    a null body whose member is then read). *)
Record Reply := {
  success : bool;
  detail : string;        (* empty when the member is missing *)
  data : Data
}.

Inductive Answer :=
| Failed
| Replied (r : Reply).

(** *** Handlers, cut at their awaits *)

(** [fetchStatus] (lines 326-334) *)
Definition fetchStatus_call (st : State) : State * list Command :=
  (st, [Get "/api/status"]).

Definition fetchStatus_answer (a : Answer) (st : State) : State * list Command :=
  match a with
  | Failed => (st, [ConsoleError])
  | Replied r => if success r then (set_status (data r) st, []) else (st, [])
  end.

(** [rotateToPosition] (lines 337-361): the guard and the request, then the
    answer, then the 20 s timer set on success. *)
Definition rotateToPosition_call (positionValue : string) (st : State)
  : State * list Command :=
  if isMoving st then (st, [])
  else (set_isMoving true st,
        [Post "/api/position/rotate"
           (Rotation positionValue "수동 변환 / Manual rotation")]).

Definition rotateToPosition_answer (a : Answer) (st : State)
  : State * list Command :=
  match a with
  | Failed => (set_isMoving false st, [ConsoleError])
  | Replied r =>
      if negb (success r) then
        (set_isMoving false st,
         [AlertDialog ("자세 변환 실패: " ++
                       (if (detail r =? EmptyString)%string then "알 수 없는 오류"
                        else detail r))])
      else (st, [SetTimeout 20000])
  end.

Definition rotate_timeout (st : State) : State * list Command :=
  (set_isMoving false st, []).

(** [triggerEmergencyStop] (lines 364-374); [confirmed] is what [confirm(...)] returns and
    [resolved] whether the awaited [fetch] resolves (its answer is not read). *)
Definition triggerEmergencyStop_call (confirmed : bool) (st : State)
  : State * list Command :=
  if negb confirmed then (st, [ConfirmDialog])
  else (st, [ConfirmDialog; Post "/api/emergency-stop" NoBody]).

Definition triggerEmergencyStop_answer (resolved : bool) (st : State)
  : State * list Command :=
  if resolved then (set_isMoving false (set_isEmergencyStopped true st), [])
  else (st, [ConsoleError]).

(** [pauseSchedule] and [resumeSchedule] (lines 383-396): the answer to the POST is not read;
    when the [fetch] rejects the rejection leaves the function. *)
Definition pauseSchedule_call (st : State) : State * list Command :=
  (st, [Post "/api/scheduler/pause" EmptyObject]).

Definition resumeSchedule_call (st : State) : State * list Command :=
  (st, [Post "/api/scheduler/resume" NoBody]).

Definition schedule_answer (a : Answer) (st : State) : State * list Command :=
  match a with
  | Failed => (st, [])
  | Replied _ => fetchStatus_call st
  end.

(** [resumeAfterEmergency] (lines 377-380): the flag is cleared, then
    [resumeSchedule] is entered. *)
Definition resumeAfterEmergency_call (st : State) : State * list Command :=
  resumeSchedule_call (set_isEmergencyStopped false st).

(** [fetchAiSummary] (lines 399-412); reading [data.data.summary] throws when [data.data] is
    null, and gives undefined when the member is missing. *)
Definition ai_error : string :=
  "AI 분석 중 오류가 발생했습니다. / AI analysis error occurred.".

Definition fetchAiSummary_call (st : State) : State * list Command :=
  (set_isLoadingAi true st, [Get "/api/ai/summary"]).

Definition fetchAiSummary_answer (a : Answer) (st : State)
  : State * list Command :=
  let st' :=
    match a with
    | Failed => set_aiSummary (Some ai_error) st
    | Replied r =>
        if success r then
          match data r with
          | DNull => set_aiSummary (Some ai_error) st
          | DText t => set_aiSummary (Some t) st
          | _ => set_aiSummary None st
          end
        else st
    end in
  (set_isLoadingAi false st', []).

(** [connectWebSocket] (lines 280-319): a new socket, and one more 30 s
    interval for the keep-alive ping.  The handlers it installs are
    [onopen] (which also cancels the reconnection timer), [onmessage],
    [onclose] (which also sets the 5 s reconnection timer) and [onerror]. *)
Definition connectWebSocket : list Command := [OpenSocket; SetInterval 30000].

Definition onopen_commands : list Command := [ClearTimeout].

Definition onclose_commands : list Command := [SetTimeout 5000].

Definition onerror_commands : list Command := [CloseSocket].

(** The callback of the 30 s interval; [socket_open] tells whether
    [ws?.readyState === WebSocket.OPEN]. *)
Definition ping (socket_open : bool) : list Command :=
  if socket_open then [SocketSend "ping"] else [].

(** [onMounted] (lines 437-457) and the [onUnmounted] it registers. *)
Definition onMounted (st : State) : State * list Command :=
  (st, (snd (fetchStatus_call st) ++ connectWebSocket
        ++ [SetInterval 1000; SetInterval 5000])%list).

Definition onUnmounted : list Command :=
  [ClearInterval; ClearInterval; ClearTimeout; CloseSocket].

(** *** The template: which controls exist and which are disabled *)

Inductive Control :=
| RotateButton (k : nat)            (* the k-th button of [v-for pos in positions] *)
| PauseButton
| ResumeButton
| EmergencyStopButton
| ResumeAfterEmergencyButton
| AiButton.

Definition shown (c : Control) (st : State) : bool :=
  match c with
  | RotateButton k => (k <? List.length positions)%nat
  | PauseButton => negb (get_is_paused (status st))
  | ResumeButton => get_is_paused (status st)
  | EmergencyStopButton => true
  | ResumeAfterEmergencyButton => isEmergencyStopped st
  | AiButton => true
  end.

Definition disabled (c : Control) (st : State) : bool :=
  match c with
  | RotateButton _ => isMoving st || isEmergencyStopped st
  | AiButton => isLoadingAi st
  | _ => false
  end.

(** *** Everything that can happen to the dashboard *)

(** One event is one handler run to its end or to its next [await].  A click
    reaches its handler only when the control is rendered and not disabled;
    [confirmed] is the operator's answer to the confirmation dialog, which
    only the emergency-stop button opens.  The reconnection timer, the
    keep-alive ping, a socket error, mounting and unmounting change no ref;
    they only issue commands. *)

Inductive Event :=
| WsOpen
| WsMessage (f : Frame)
| WsClose
| ClockTick (clock : string)
| PollStatus
| StatusAnswer (a : Answer)
| Click (c : Control) (confirmed : bool)
| RotateAnswer (a : Answer)
| RotateTimeout
| EmergencyStopAnswer (resolved : bool)
| ScheduleAnswer (a : Answer)
| AiAnswer (a : Answer)
| ReconnectTimeout
| PingTick (socket_open : bool)
| WsError
| Mounted
| Unmounted.

Definition onclick (c : Control) (confirmed : bool) (st : State)
  : State * list Command :=
  match c with
  | RotateButton k =>
      match nth_error positions k with
      | Some pos => rotateToPosition_call (value pos) st
      | None => (st, [])
      end
  | PauseButton => pauseSchedule_call st
  | ResumeButton => resumeSchedule_call st
  | EmergencyStopButton => triggerEmergencyStop_call confirmed st
  | ResumeAfterEmergencyButton => resumeAfterEmergency_call st
  | AiButton => fetchAiSummary_call st
  end.

Definition step (ev : Event) (st : State) : State * list Command :=
  match ev with
  | WsOpen => (onopen st, onopen_commands)
  | WsMessage f => (onmessage f st, [])
  | WsClose => (onclose st, onclose_commands)
  | ClockTick clock => (set_currentTime clock st, [])
  | PollStatus => fetchStatus_call st
  | StatusAnswer a => fetchStatus_answer a st
  | Click c confirmed =>
      if shown c st && negb (disabled c st) then onclick c confirmed st
      else (st, [])
  | RotateAnswer a => rotateToPosition_answer a st
  | RotateTimeout => rotate_timeout st
  | EmergencyStopAnswer resolved => triggerEmergencyStop_answer resolved st
  | ScheduleAnswer a => schedule_answer a st
  | AiAnswer a => fetchAiSummary_answer a st
  | ReconnectTimeout => (st, connectWebSocket)
  | PingTick socket_open => (st, ping socket_open)
  | WsError => (st, onerror_commands)
  | Mounted => onMounted st
  | Unmounted => (st, onUnmounted)
  end.

Fixpoint run (evs : list Event) (st : State) : State :=
  match evs with
  | [] => st
  | ev :: rest => run rest (fst (step ev st))
  end.

Fixpoint issued (evs : list Event) (st : State) : list Command :=
  match evs with
  | [] => []
  | ev :: rest => (snd (step ev st) ++ issued rest (fst (step ev st)))%list
  end.

(** The payloads of the alert messages among a sequence of events, in
    arrival order. *)
Definition alert_payload (ev : Event) : list Data :=
  match ev with
  | WsMessage (Msg type data) =>
      if (type =? "initial_status")%string || (type =? "status_update")%string
      then []
      else if (type =? "alert")%string then [data] else []
  | _ => []
  end.

Definition alert_payloads (evs : list Event) : list Data :=
  flat_map alert_payload evs.

(** Whether the server answered a call with [success: true]. *)
Definition acknowledged (a : Answer) : bool :=
  match a with
  | Failed => false
  | Replied r => success r
  end.

(** *** Whole operations, when nothing else happens in between *)

Definition rotateToPosition (positionValue : string) (a : Answer) (st : State)
  : State * list Command :=
  if isMoving st then rotateToPosition_call positionValue st
  else
    let (st1, c1) := rotateToPosition_call positionValue st in
    let (st2, c2) := rotateToPosition_answer a st1 in
    (st2, (c1 ++ c2)%list).

Definition triggerEmergencyStop (confirmed resolved : bool) (st : State)
  : State * list Command :=
  let (st1, c1) := triggerEmergencyStop_call confirmed st in
  if confirmed then
    let (st2, c2) := triggerEmergencyStop_answer resolved st1 in
    (st2, (c1 ++ c2)%list)
  else (st1, c1).

Definition resumeSchedule (a sa : Answer) (st : State) : State * list Command :=
  let (st1, c1) := resumeSchedule_call st in
  let (st2, c2) := schedule_answer a st1 in
  match a with
  | Failed => (st2, (c1 ++ c2)%list)
  | Replied _ =>
      let (st3, c3) := fetchStatus_answer sa st2 in
      (st3, (c1 ++ c2 ++ c3)%list)
  end.


(** *** Sample data for the examples below *)

Definition ticking_status (next : Z) : Data :=
  DStatus {| current_position := "supine"; current_position_ko := "앙와위";
             next_rotation_time := Instant next; is_paused := false;
             total_rotations := 3 |}.

Definition paused_status (field : TimeField) : Data :=
  DStatus {| current_position := "supine"; current_position_ko := "앙와위";
             next_rotation_time := field; is_paused := true;
             total_rotations := 3 |}.

End Dashboard.

(* ================================================================== *)
(** ** The control engine *)
(* ================================================================== *)

Module Engine.

(** Modelled from the spec: the data model of section 3 (the engine's code,
    carebot_core/main.py, is not among the sources). *)
Inductive Position := Supine | LeftLateral30 | RightLateral30.

Inductive ActuatorId := HeadLeft | HeadRight | FootLeft | FootRight.

Definition actuators : list ActuatorId :=
  [HeadLeft; HeadRight; FootLeft; FootRight].

(** Modelled from the spec: the names under which the three Positions travel
    between dashboard and engine (the server code that reads them is not
    among the sources; the dashboard's position list pairs each name with
    its English label). *)
Definition position_of_wire (name : string) : option Position :=
  if (name =? "supine")%string then Some Supine
  else if (name =? "left_lateral")%string then Some LeftLateral30
  else if (name =? "right_lateral")%string then Some RightLateral30
  else None.

(** *** Safety monitor *)

Inductive SafetyVerdict :=
| Clear
| EmergencyStopped
| Overload (channel : ActuatorId)
| NoPatientDetected.

Record MonitorConfig := {
  overload_threshold : Q;
  presence_threshold : Q
}.

Record Readings := {
  interlock : bool;                   (* physical button or software flag *)
  drive_current : ActuatorId -> Q;
  pressure : list Q                   (* the four pressure channels *)
}.

(** Modelled from the spec: a channel is overloaded when its drive current
    exceeds the configured threshold; the patient is absent when the
    aggregate pressure is below the presence threshold (section 4.1). *)
Definition exceeds (x limit : Q) : bool := negb (Qle_bool x limit).

Definition below (x limit : Q) : bool := negb (Qle_bool limit x).

Definition overloaded (cfg : MonitorConfig) (r : Readings) (ch : ActuatorId)
  : bool :=
  exceeds (drive_current r ch) (overload_threshold cfg).

Definition aggregate (ps : list Q) : Q := fold_right Qplus (0 # 1)%Q ps.

(** Modelled from the spec: the safety monitor's [check()] (section 4.1; the
    engine's code is not among the sources).  [latched] is the sticky
    emergency-stop flag, [starting] tells whether the check is made before a
    movement starts (patient presence is only consulted then). *)
Definition check (cfg : MonitorConfig) (latched starting : bool) (r : Readings)
  : SafetyVerdict :=
  if interlock r || latched then EmergencyStopped
  else match find (overloaded cfg r) actuators with
       | Some ch => Overload ch
       | None =>
           if starting && below (aggregate (pressure r)) (presence_threshold cfg)
           then NoPatientDetected
           else Clear
       end.

(** *** Rotation scheduler *)

Record Scheduler := {
  dueAt : Z;
  interval : Z;
  paused : bool
}.


Definition onRotationStarted (now : Z) (s : Scheduler) : Scheduler :=
  {| dueAt := now + interval s; interval := interval s; paused := paused s |}.


Definition resume (now : Z) (s : Scheduler) : Scheduler :=
  {| dueAt := now + interval s; interval := interval s; paused := false |}.

(** *** Motion planner *)

Definition Extensions := ActuatorId -> Q.

Definition MotionPlan := list Extensions.

Inductive PlanError := InvalidTarget | InvalidStepCount.

Section Planner.

(** The calibration value of the lookup table: how far the raised side is
    extended in a lateral position. *)
Variable calibration : Q.

(** Modelled from the spec: the canonical extension table (section 4.2). *)
Definition canonical (p : Position) : Extensions :=
  fun a =>
    match p, a with
    | Supine, _ => (0 # 1)%Q
    | LeftLateral30, (HeadLeft | FootLeft) => calibration
    | LeftLateral30, _ => (0 # 1)%Q
    | RightLateral30, (HeadRight | FootRight) => calibration
    | RightLateral30, _ => (0 # 1)%Q
    end.

(** Modelled from the spec: the extension at step [i] of [stepCount] is
    start + (end - start) * i / stepCount, in exact rational arithmetic. *)
Definition interpolate (start finish : Q) (i stepCount : Z) : Q :=
  (start + (finish - start) * inject_Z i / inject_Z stepCount)%Q.

Definition step_targets (from to : Extensions) (i stepCount : Z) : Extensions :=
  fun a => interpolate (from a) (to a) i stepCount.

(** Modelled from the spec: [plan(current, target, stepCount)] (section 4.2;
    the engine's code is not among the sources).  [target] is [None] when the
    requested target is not one of the three canonical Positions.  The plan
    has [stepCount] steps, numbered 1 to [stepCount]. *)
Definition plan (current : Position) (target : option Position) (stepCount : Z)
  : PlanError + MotionPlan :=
  match target with
  | None => inl InvalidTarget
  | Some t =>
      if stepCount <? 1 then inl InvalidStepCount
      else inr (map (fun i => step_targets (canonical current) (canonical t)
                                           (Z.of_nat i) stepCount)
                    (seq 1 (Z.to_nat stepCount)))
  end.

End Planner.

(** *** Sample data for the examples below *)

Definition sample_config : MonitorConfig :=
  {| overload_threshold := (5 # 2)%Q; presence_threshold := (1 # 1)%Q |}.

(** The stop button is pressed while the head-left drive draws too much
    current. *)
Definition pressed_and_overloaded : Readings :=
  {| interlock := true;
     drive_current := fun ch => match ch with
                                | HeadLeft => (4 # 1)%Q
                                | _ => (1 # 1)%Q
                                end;
     pressure := [(1 # 1)%Q; (1 # 1)%Q; (1 # 1)%Q; (1 # 1)%Q] |}.


End Engine.

(* ================================================================== *)
(** ** The dashboard: template bindings and utilities *)
(* ================================================================== *)

Module DashboardView.
Import Dashboard.

(** *** Text helpers *)

(** [s.startsWith(p)] *)
Fixpoint starts_with (p s : string) : bool :=
  match p, s with
  | EmptyString, _ => true
  | String _ _, EmptyString => false
  | String a p', String b s' => Ascii.eqb a b && starts_with p' s'
  end.

Fixpoint drop (n : nat) (s : string) : string :=
  match n, s with
  | O, _ => s
  | S _, EmptyString => EmptyString
  | S n', String _ s' => drop n' s'
  end.

(** [s.replace(pat, rep)] with a string pattern and a replacement without
    dollar patterns: the first occurrence of [pat] is replaced, a string
    without occurrence is returned as it is. *)
Fixpoint replace (pat rep s : string) : string :=
  if starts_with pat s then rep ++ drop (String.length pat) s
  else match s with
       | EmptyString => EmptyString
       | String c s' => String c (replace pat rep s')
       end.

(** Whether [pat] occurs somewhere in [s]. *)
Fixpoint occurs (pat s : string) : bool :=
  starts_with pat s
  || match s with
     | EmptyString => false
     | String _ s' => occurs pat s'
     end.

(** *** Addresses (lines 247 and 281) *)

(** [import.meta.env.VITE_API_BASE || 'http://localhost:8000']: a variable
    that is not set, or set to the empty string, gives the default. *)
Definition API_BASE (env : option string) : string :=
  match env with
  | Some base => if (base =? EmptyString)%string then "http://localhost:8000"
                 else base
  | None => "http://localhost:8000"
  end.

Definition wsUrl (base : string) : string := replace "http" "ws" base ++ "/ws".

(** *** Computed values and class bindings of the template *)

(** [p.value === status.value?.current_position] *)
Definition is_current (st : State) (p : PositionItem) : bool :=
  match get_current_position (status st) with
  | Some c => (value p =? c)%string
  | None => false
  end.

(** [currentPositionEmoji] (lines 259-262) *)
Definition currentPositionEmoji (st : State) : string :=
  match find (is_current st) positions with
  | Some pos => if (emoji pos =? EmptyString)%string then "❓" else emoji pos
  | None => "❓"
  end.

(** The highlight of the k-th position button (line 113) and its label
    (lines 122-126). *)
Definition highlighted (k : nat) (st : State) : bool :=
  match nth_error positions k with
  | Some pos => is_current st pos
  | None => false
  end.

(** The status indicator of the header (lines 18-22). *)
Definition bg_green (st : State) : bool :=
  match connectionStatus st with connected => true | disconnected => false end
  && negb (isEmergencyStopped st).

Definition bg_yellow (st : State) : bool := get_is_paused (status st).

Definition bg_red (st : State) : bool :=
  isEmergencyStopped st
  || match connectionStatus st with disconnected => true | connected => false end.

(** The emergency banner (line 43) and the moving overlay (line 217). *)
Definition banner_shown (st : State) : bool := isEmergencyStopped st.

Definition overlay_shown (st : State) : bool := isMoving st.

(** *** Log row helpers (lines 421-432) *)

(** The members every object literal inherits from [Object.prototype]; a
    lookup with one of these keys finds the inherited member, which is
    truthy. *)
Definition inherited_keys : list string :=
  [ "constructor"; "toString"; "toLocaleString"; "valueOf"; "hasOwnProperty";
    "isPrototypeOf"; "propertyIsEnumerable"; "__proto__";
    "__defineGetter__"; "__defineSetter__"; "__lookupGetter__";
    "__lookupSetter__" ].

Inductive Found :=
| Text (t : string)
| InheritedMember (key : string).

Fixpoint own (table : list (string * string)) (key : string) : option string :=
  match table with
  | [] => None
  | (k, v) :: rest => if (k =? key)%string then Some v else own rest key
  end.

(** [table[key] || fallback] *)
Definition lookup_or (table : list (string * string)) (fallback key : string)
  : Found :=
  match own table key with
  | Some v => if (v =? EmptyString)%string then Text fallback else Text v
  | None =>
      if existsb (String.eqb key) inherited_keys then InheritedMember key
      else Text fallback
  end.

Definition logLevelEmoji (level : string) : Found :=
  lookup_or [ ("info", "✅"); ("warning", "⚠️"); ("critical", "🚨");
              ("error", "❌") ] "•" level.

Definition logRowClass (level : string) : Found :=
  lookup_or [ ("info", "bg-gray-800/30"); ("warning", "bg-yellow-900/20");
              ("critical", "bg-red-900/30"); ("error", "bg-red-900/30") ]
            EmptyString level.

(** *** Whole operations, when nothing else happens in between *)

Definition pauseSchedule (a sa : Answer) (st : State) : State * list Command :=
  let (st1, c1) := pauseSchedule_call st in
  let (st2, c2) := schedule_answer a st1 in
  match a with
  | Failed => (st2, (c1 ++ c2)%list)
  | Replied _ =>
      let (st3, c3) := fetchStatus_answer sa st2 in
      (st3, (c1 ++ c2 ++ c3)%list)
  end.

Definition fetchAiSummary (a : Answer) (st : State) : State * list Command :=
  let (st1, c1) := fetchAiSummary_call st in
  let (st2, c2) := fetchAiSummary_answer a st1 in
  (st2, (c1 ++ c2)%list).

(** *** Reading a countdown text back *)

Fixpoint split_colon (s : string) : option (string * string) :=
  match s with
  | EmptyString => None
  | String c s' =>
      if Ascii.eqb c ":" then Some (EmptyString, s')
      else match split_colon s' with
           | Some (before, after) => Some (String c before, after)
           | None => None
           end
  end.

Definition read_countdown (text : string) : option (Z * Z) :=
  match split_colon text with
  | Some (m, s) =>
      match NilZero.int_of_string m, NilZero.int_of_string s with
      | Some mins, Some secs => Some (Z.of_int mins, Z.of_int secs)
      | _, _ => None
      end
  | None => None
  end.

(** The socket events among a sequence of events decide the connection
    indicator: the last of them, if any. *)
Fixpoint last_socket_event (evs : list Event) (before : Connection)
  : Connection :=
  match evs with
  | [] => before
  | WsOpen :: rest => last_socket_event rest connected
  | WsClose :: rest => last_socket_event rest disconnected
  | _ :: rest => last_socket_event rest before
  end.

End DashboardView.

(* ================================================================== *)
(** ** Properties of the dashboard *)
(* ================================================================== *)

Module DashboardFacts.
Import Dashboard.

(** *** Rendering of numbers *)

Lemma String_of_reads_back (n : Z) :
  option_map Z.of_int (NilZero.int_of_string (Js.String_of n)) = Some n.
Proof.
  unfold Js.String_of. rewrite NilZero.isi.
  - simpl. now rewrite DecimalZ.of_to.
  - destruct n; simpl; try discriminate.
    intros H. injection H as H. now apply Unsigned.to_uint_nonnil in H.
  - destruct n; simpl; try discriminate.
    intros H. injection H as H. now apply Unsigned.to_uint_nonnil in H.
Qed.


Lemma pad2_zero : pad2 0 = "00".
Proof. reflexivity. Qed.

(** *** Frame lemmas: which handler touches which ref *)

Ltac crush_state :=
  repeat match goal with
         | |- context [match ?x with _ => _ end] => destruct x; simpl
         | |- context [if ?b then _ else _] => destruct b; simpl
         end; try reflexivity; try congruence.


Lemma step_eventLogs (ev : Event) (st : State) :
  (forall f, ev <> WsMessage f) ->
  eventLogs (fst (step ev st)) = eventLogs st.
Proof.
  intros Hne. destruct ev; simpl; try reflexivity.
  - exfalso. eapply Hne. reflexivity.
  - unfold fetchStatus_answer. crush_state.
  - destruct (shown c st && negb (disabled c st)); [|reflexivity].
    destruct c; simpl; try reflexivity.
    + destruct (nth_error positions k); [|reflexivity].
      unfold rotateToPosition_call. crush_state.
    + unfold triggerEmergencyStop_call. crush_state.
  - unfold rotateToPosition_answer. crush_state.
  - unfold triggerEmergencyStop_answer. crush_state.
  - unfold schedule_answer. crush_state.
  - unfold fetchAiSummary_answer. crush_state.
Qed.


(** *** The event log *)

Lemma firstn_app_firstn {A} (n : nat) (l m : list A) :
  firstn n (l ++ firstn n m) = firstn n (l ++ m).
Proof.
  rewrite !firstn_app, firstn_firstn.
  f_equal. f_equal. lia.
Qed.

Lemma pop_unshift_firstn {A} (d : A) (l : list A) :
  (List.length l <= 100)%nat ->
  (if 100 <? Z.of_nat (List.length (Js.unshift d l))
   then Js.pop (Js.unshift d l) else Js.unshift d l)
  = firstn 100 (d :: l).
Proof.
  intros Hlen. unfold Js.unshift, Js.pop.
  destruct (Z.ltb_spec 100 (Z.of_nat (List.length (d :: l)))) as [Hgt|Hle].
  - simpl List.length in Hgt.
    rewrite (removelast_firstn_len (d :: l)).
    f_equal. simpl List.length. lia.
  - rewrite firstn_all2; [reflexivity|]. simpl List.length in *. lia.
Qed.

Lemma eventLogs_step_firstn (ev : Event) (st : State) :
  (List.length (eventLogs st) <= 100)%nat ->
  eventLogs (fst (step ev st))
  = firstn 100 (rev (alert_payload ev) ++ eventLogs st).
Proof.
  intros Hlen.
  assert (Hsame : firstn 100 (eventLogs st) = eventLogs st)
    by (apply firstn_all2; lia).
  destruct ev;
    try (rewrite step_eventLogs by (intros ? ?; discriminate);
         cbn [alert_payload rev app]; now rewrite Hsame).
  destruct f as [|type data]; cbn [alert_payload rev app step onmessage fst];
    [now rewrite Hsame|].
  destruct ((type =? "initial_status")%string || (type =? "status_update")%string);
    cbn [rev app set_status eventLogs]; [now rewrite Hsame|].
  destruct (type =? "alert")%string; cbn [rev app set_eventLogs eventLogs].
  - now apply pop_unshift_firstn.
  - destruct (type =? "emergency_stop")%string;
      cbn [set_isMoving set_isEmergencyStopped eventLogs]; now rewrite Hsame.
Qed.

Lemma eventLogs_run_from (evs : list Event) : forall st,
  (List.length (eventLogs st) <= 100)%nat ->
  eventLogs (run evs st)
  = firstn 100 (rev (alert_payloads evs) ++ eventLogs st).
Proof.
  induction evs as [|ev rest IH]; intros st Hlen;
    unfold alert_payloads; cbn [run flat_map rev app].
  - symmetry. apply firstn_all2. lia.
  - fold (alert_payloads rest). rewrite IH.
    + rewrite eventLogs_step_firstn by assumption.
      rewrite firstn_app_firstn, rev_app_distr, <- app_assoc. reflexivity.
    + rewrite eventLogs_step_firstn by assumption.
      rewrite length_firstn. lia.
Qed.

(** C9.  Whatever happens to the dashboard, starting from the mounted
    component, the event log is the newest-first list of the alert payloads
    received so far, cut to the 100 newest, hence never longer than 100.
    One alert message puts its payload in front and, when the log already
    held 100 entries, drops the last (oldest) one; a message of any other
    type, and a frame that cannot be read, leave the log as it was. *)
Theorem event_log_bounded_newest_first (evs : list Event) :
  eventLogs (run evs initial) = firstn 100 (rev (alert_payloads evs))
  /\ (List.length (eventLogs (run evs initial)) <= 100)%nat
  /\ (forall frames,
        eventLogs (run (map WsMessage frames) initial)
        = firstn 100 (rev (alert_payloads (map WsMessage frames))))
  /\ (forall type data st,
        eventLogs (onmessage (Msg type data) st)
        = if (type =? "alert")%string
          then data :: (if (100 <=? List.length (eventLogs st))%nat
                        then removelast (eventLogs st) else eventLogs st)
          else eventLogs st)
  /\ (forall st, eventLogs (onmessage Garbled st) = eventLogs st).
Proof.
  assert (Hrun : forall l, eventLogs (run l initial)
                           = firstn 100 (rev (alert_payloads l))).
  { intros l. rewrite eventLogs_run_from by (simpl; lia).
    cbn [initial eventLogs]. now rewrite app_nil_r. }
  split; [apply Hrun|].
  split; [rewrite Hrun, length_firstn; lia|].
  split; [intros frames; apply Hrun|].
  split; [|reflexivity].
  intros type data st. unfold onmessage.
  destruct (type =? "alert")%string eqn:Halert.
  - apply String.eqb_eq in Halert. subst type.
    cbn [String.eqb Ascii.eqb Bool.eqb orb set_eventLogs eventLogs].
    unfold Js.unshift, Js.pop.
    destruct (eventLogs st) as [|e l] eqn:Hl.
    + reflexivity.
    + destruct (Z.ltb_spec 100 (Z.of_nat (List.length (data :: e :: l))));
        destruct (Nat.leb_spec 100 (List.length (e :: l)));
        cbn [List.length] in *; try lia; reflexivity.
  - destruct ((type =? "initial_status")%string || (type =? "status_update")%string);
      [reflexivity|].
    destruct (type =? "emergency_stop")%string; reflexivity.
Qed.

(** C10.  A message of type emergency_stop sets isEmergencyStopped to true
    and isMoving to false; status, eventLogs, aiSummary, connectionStatus
    (and the two remaining refs) keep their values. *)
Theorem emergency_stop_message_frame (data : Data) (st : State) :
  let st' := onmessage (Msg "emergency_stop" data) st in
  isEmergencyStopped st' = true
  /\ isMoving st' = false
  /\ status st' = status st
  /\ eventLogs st' = eventLogs st
  /\ aiSummary st' = aiSummary st
  /\ connectionStatus st' = connectionStatus st
  /\ isLoadingAi st' = isLoadingAi st
  /\ currentTime st' = currentTime st.
Proof. cbv zeta. repeat split. Qed.

(** *** The countdown *)

Lemma countdown_instant (now next : Z) (st : State) :
  get_next_rotation_time (status st) = Instant next ->
  get_is_paused (status st) = false ->
  nextRotationCountdown now st
  = pad2 (Z.max 0 (next - now) / 60000)
    ++ ":" ++ pad2 (Z.max 0 (next - now) mod 60000 / 1000).
Proof.
  intros Hnext Hrun. unfold nextRotationCountdown.
  rewrite Hnext, Hrun. reflexivity.
Qed.






(** *** Rotation requests *)

(** C3.  While isMoving is set, a rotation request is turned away at once:
    rotateToPosition issues no command at all (no POST, no dialog, no timer,
    so nothing is queued for later and nothing replaces the movement in
    flight) and leaves every ref of the dashboard as it was; this holds for
    the handler itself, for the whole operation whatever the server would
    have answered, and for a click on any of the position buttons, which are
    disabled as long as isMoving is set. *)
Theorem rotation_rejected_while_moving (positionValue : string) (st : State) :
  isMoving st = true ->
  rotateToPosition_call positionValue st = (st, [])
  /\ (forall a, rotateToPosition positionValue a st = (st, []))
  /\ (forall k confirmed,
        disabled (RotateButton k) st = true
        /\ step (Click (RotateButton k) confirmed) st = (st, [])).
Proof.
  intros Hmoving.
  assert (Hcall : forall p, rotateToPosition_call p st = (st, []))
    by (intros p; unfold rotateToPosition_call; now rewrite Hmoving).
  split; [apply Hcall|].
  split.
  - intros a. unfold rotateToPosition. rewrite Hmoving. apply Hcall.
  - intros k confirmed.
    assert (Hdis : disabled (RotateButton k) st = true)
      by (cbn [disabled]; now rewrite Hmoving).
    split; [exact Hdis|].
    cbn [step]. rewrite Hdis, andb_false_r. reflexivity.
Qed.

Lemma rotation_rejected_while_moving_witness :
  isMoving (set_isMoving true initial) = true
  /\ rotateToPosition_call "left_lateral" (set_isMoving true initial)
     = (set_isMoving true initial, []).
Proof.
  split; [reflexivity|].
  apply (rotation_rejected_while_moving "left_lateral"
           (set_isMoving true initial)).
  reflexivity.
Defined.

(** *** Emergency stop *)

(** C2 as stated fails on the dashboard: when the operator answers the
    confirmation dialog with Cancel, nothing is sent and a dashboard that
    shows a movement in progress stays as it is. *)
Lemma emergency_stop_counterexample :
  ~ (isEmergencyStopped
       (fst (triggerEmergencyStop false true (set_isMoving true initial)))
     = true
     /\ isMoving
          (fst (triggerEmergencyStop false true (set_isMoving true initial)))
        = false).
Proof. intros [Hstopped _]. discriminate Hstopped. Qed.

(** C2, amended.  In every state of the dashboard (moving or not, paused or
    not, already stopped or not) the emergency-stop button is shown and
    enabled, and a click that the operator confirms sends POST
    /api/emergency-stop.  Whatever the state is when that request completes,
    the dashboard then has isEmergencyStopped = true and isMoving = false.
    A click that the operator does not confirm sends nothing and changes
    nothing. *)
Theorem emergency_stop_when_confirmed (st : State) :
  shown EmergencyStopButton st = true
  /\ disabled EmergencyStopButton st = false
  /\ step (Click EmergencyStopButton true) st
     = (st, [ConfirmDialog; Post "/api/emergency-stop" NoBody])
  /\ (forall later,
        isEmergencyStopped (fst (step (EmergencyStopAnswer true) later)) = true
        /\ isMoving (fst (step (EmergencyStopAnswer true) later)) = false)
  /\ isEmergencyStopped (fst (triggerEmergencyStop true true st)) = true
  /\ isMoving (fst (triggerEmergencyStop true true st)) = false
  /\ (forall resolved,
        triggerEmergencyStop false resolved st = (st, [ConfirmDialog]))
  /\ step (Click EmergencyStopButton false) st = (st, [ConfirmDialog]).
Proof. repeat split. Qed.

(** *** Resuming after an emergency stop *)




End DashboardFacts.

(* ================================================================== *)
(** ** Properties of the control engine *)
(* ================================================================== *)

Module EngineFacts.
Import Engine.

(** *** Safety monitor *)

(** C4.  Whenever the emergency-stop condition holds (interlock asserted or
    latch set), [check] answers EmergencyStopped, whatever the drive
    currents and pressures are; in particular when some channel is
    overloaded at the same time.  Overload is reported only when no
    emergency-stop condition holds. *)
Theorem emergency_stop_has_priority
    (cfg : MonitorConfig) (latched starting : bool) (r : Readings) :
  interlock r || latched = true ->
  check cfg latched starting r = EmergencyStopped
  /\ (forall ch, overloaded cfg r ch = true ->
                 check cfg latched starting r = EmergencyStopped)
  /\ (forall ch, check cfg latched starting r <> Overload ch)
  /\ check cfg latched starting r <> NoPatientDetected
  /\ check cfg latched starting r <> Clear.
Proof.
  intros Hstop.
  assert (Hcheck : check cfg latched starting r = EmergencyStopped)
    by (unfold check; now rewrite Hstop).
  rewrite Hcheck. repeat split; discriminate.
Qed.

Lemma emergency_stop_has_priority_witness :
  overloaded sample_config pressed_and_overloaded HeadLeft = true
  /\ check sample_config false true pressed_and_overloaded = EmergencyStopped.
Proof.
  split; [reflexivity|].
  apply (emergency_stop_has_priority sample_config false true
           pressed_and_overloaded).
  reflexivity.
Defined.

(** *** Motion planner *)

Section PlannerFacts.

Variable calibration : Q.

Lemma inject_Z_nonzero (n : Z) : 1 <= n -> ~ inject_Z n == 0.
Proof.
  intros Hn Hzero. unfold Qeq in Hzero. simpl in Hzero. lia.
Qed.

Lemma interpolate_last (start finish : Q) (n : Z) :
  1 <= n -> interpolate start finish n n == finish.
Proof.
  intros Hn. unfold interpolate. field. now apply inject_Z_nonzero.
Qed.

Lemma interpolate_first_delta (start finish : Q) (n : Z) :
  1 <= n ->
  Qabs (interpolate start finish 1 n - start)
  == Qabs (finish - start) / inject_Z n.
Proof.
  intros Hn. pose proof (inject_Z_nonzero n Hn) as Hnz.
  assert (Hdelta : interpolate start finish 1 n - start
                   == (finish - start) * / inject_Z n)
    by (unfold interpolate; field; assumption).
  rewrite Hdelta, Qabs_Qmult, Qabs_Qinv.
  rewrite (Qabs_pos (inject_Z n)).
  - reflexivity.
  - change 0%Q with (inject_Z 0). rewrite <- Zle_Qle. lia.
Qed.

Lemma plan_step (current target : Position) (n : Z) (i : nat) :
  (1 <= i <= Z.to_nat n)%nat ->
  nth_error (map (fun k => step_targets (canonical calibration current)
                                        (canonical calibration target)
                                        (Z.of_nat k) n)
                 (seq 1 (Z.to_nat n))) (i - 1)
  = Some (step_targets (canonical calibration current)
                       (canonical calibration target) (Z.of_nat i) n).
Proof.
  intros Hi. rewrite nth_error_map, nth_error_seq.
  destruct (Nat.ltb_spec (i - 1) (Z.to_nat n)); [|lia].
  simpl. do 3 f_equal. lia.
Qed.

(** C5.  For every pair of Positions and every step count n >= 1, [plan]
    succeeds with a plan of n steps; step i (counted from 1) sets every
    actuator to start + (end - start) * i / n, where start and end are the
    canonical extensions of the current and of the target Position.  For
    every actuator the first step moves by at most 1/n of the full
    difference (in absolute value), and the last step is the target's
    canonical extension. *)
Theorem plan_linear_interpolation (current target : Position) (n : Z) :
  1 <= n ->
  exists p : MotionPlan,
    plan calibration current (Some target) n = inr p
    /\ List.length p = Z.to_nat n
    /\ (forall i, (1 <= i <= Z.to_nat n)%nat ->
          exists s, nth_error p (i - 1) = Some s
            /\ forall a, s a = (canonical calibration current a
                                + (canonical calibration target a
                                   - canonical calibration current a)
                                  * inject_Z (Z.of_nat i) / inject_Z n)%Q)
    /\ (exists first, nth_error p 0 = Some first
          /\ forall a,
               (Qabs (first a - canonical calibration current a)
                <= Qabs (canonical calibration target a
                         - canonical calibration current a) / inject_Z n)%Q)
    /\ (exists last, nth_error p (Z.to_nat n - 1) = Some last
          /\ forall a, (last a == canonical calibration target a)%Q).
Proof.
  intros Hn. unfold plan.
  destruct (Z.ltb_spec n 1) as [Hlt|_]; [lia|].
  eexists. split; [reflexivity|].
  split; [now rewrite length_map, length_seq|].
  split; [|split].
  - intros i Hi. eexists. split; [now apply plan_step|].
    intros a. reflexivity.
  - eexists. split; [apply (plan_step current target n 1); lia|].
    intros a. unfold step_targets. cbn [Z.of_nat Pos.of_succ_nat].
    rewrite interpolate_first_delta by assumption. apply Qle_refl.
  - eexists. split; [apply (plan_step current target n (Z.to_nat n)); lia|].
    intros a. unfold step_targets. rewrite Z2Nat.id by lia.
    now apply interpolate_last.
Qed.

End PlannerFacts.

Lemma plan_linear_interpolation_witness :
  exists p : MotionPlan,
    plan (3 # 5) Supine (Some LeftLateral30) 30 = inr p
    /\ List.length p = 30%nat.
Proof.
  destruct (plan_linear_interpolation (3 # 5) Supine LeftLateral30 30
              ltac:(lia)) as [p [Hplan [Hlen _]]].
  exists p. split; [exact Hplan | exact Hlen].
Defined.

End EngineFacts.

(* ================================================================== *)
(** ** Dashboard and engine together *)
(* ================================================================== *)

Module SystemFacts.
Import Engine.

(** *** Paused schedule *)



(** *** Requests coming from the dashboard *)

(** C7.  Every request with a rotation body that any event makes the
    dashboard send, in any state, carries as position the value of one of
    the three entries of the position list: supine, left_lateral or
    right_lateral.  Each of them names a canonical Position, so [plan]
    never answers InvalidTarget to such a request. *)
Theorem dashboard_targets_are_canonical
    (ev : Dashboard.Event) (st : Dashboard.State)
    (path position reason : string) :
  In (Dashboard.Post path (Dashboard.Rotation position reason))
     (snd (Dashboard.step ev st)) ->
  In position (map Dashboard.value Dashboard.positions)
  /\ In position ["supine"; "left_lateral"; "right_lateral"]
  /\ (exists p, position_of_wire position = Some p)
  /\ (forall calibration current stepCount,
        plan calibration current (position_of_wire position) stepCount
        <> inl InvalidTarget).
Proof.
  intros Hsent.
  assert (Hpos : In position ["supine"; "left_lateral"; "right_lateral"]).
  { destruct ev as [ | | | | |a|c confirmed|a| |resolved|a|a| |socket_open| | | ];
      cbn in Hsent; try (intuition discriminate).
    - destruct a as [|r]; cbn in Hsent; [intuition discriminate|].
      destruct (Dashboard.success r); cbn in Hsent; intuition discriminate.
    - destruct (Dashboard.shown c st && negb (Dashboard.disabled c st));
        [|cbn in Hsent; tauto].
      destruct c as [k| | | | | ]; cbn in Hsent;
        try (intuition discriminate).
      + destruct k as [|[|[|k]]];
          [ | | | destruct k; cbn in Hsent; tauto];
          cbn in Hsent; unfold Dashboard.rotateToPosition_call in Hsent;
          destruct (Dashboard.isMoving st); cbn in Hsent;
          try tauto;
          destruct Hsent as [Heq|[]]; inversion Heq; cbn; tauto.
      + destruct confirmed; cbn in Hsent; intuition discriminate.
    - destruct a as [|r]; cbn in Hsent; [intuition discriminate|].
      destruct (negb (Dashboard.success r)); cbn in Hsent;
        intuition discriminate.
    - destruct resolved; cbn in Hsent; intuition discriminate.
    - destruct a; cbn in Hsent; intuition discriminate.
    - destruct socket_open; cbn in Hsent; intuition discriminate. }
  split; [exact Hpos|]. split; [exact Hpos|].
  cbn in Hpos.
  destruct Hpos as [H|[H|[H|[]]]]; rewrite <- H; cbn;
    (split; [eexists; reflexivity
            | intros calibration current stepCount; unfold plan;
              destruct (stepCount <? 1); discriminate]).
Qed.

Lemma dashboard_targets_are_canonical_witness :
  position_of_wire "left_lateral" = Some LeftLateral30
  /\ In "left_lateral" ["supine"; "left_lateral"; "right_lateral"].
Proof.
  split; [reflexivity|].
  apply (dashboard_targets_are_canonical
           (Dashboard.Click (Dashboard.RotateButton 1) false)
           Dashboard.initial
           "/api/position/rotate" "left_lateral"
           "수동 변환 / Manual rotation").
  cbn. left. reflexivity.
Defined.

End SystemFacts.

(* ================================================================== *)
(** ** Further properties of the dashboard's handlers *)
(* ================================================================== *)

Module HandlerFacts.
Import Dashboard DashboardView.

(** *** Rotation *)

(** X1.  A rotation started while nothing is moving sends one POST with the
    requested position and ends with isMoving equal to the server's verdict,
    every other ref untouched: after a rejected request (success false) or a
    failed one the overlay is gone, after an accepted one it stays.  A
    rejected request shows one alert carrying the server's detail, or the
    stock text when there is none; a failed one is only logged; an accepted
    one sets the 20 second timer, whose firing clears isMoving. *)
Theorem rotation_outcome (positionValue : string) (a : Answer) (st : State) :
  isMoving st = false ->
  fst (rotateToPosition positionValue a st) = set_isMoving (acknowledged a) st
  /\ (exists after,
        snd (rotateToPosition positionValue a st)
        = [Post "/api/position/rotate"
             (Rotation positionValue "수동 변환 / Manual rotation"); after]
        /\ after = match a with
                   | Failed => ConsoleError
                   | Replied r =>
                       if success r then SetTimeout 20000
                       else AlertDialog
                              ("자세 변환 실패: "
                               ++ (if (detail r =? EmptyString)%string
                                   then "알 수 없는 오류" else detail r))
                   end)
  /\ isMoving
       (fst (rotate_timeout (fst (rotateToPosition positionValue a st))))
     = false.
Proof.
  intros Hidle. unfold rotateToPosition, rotateToPosition_call.
  rewrite Hidle. cbn.
  destruct a as [|r]; cbn; [|destruct (success r); cbn];
    (split; [reflexivity|]);
    (split; [eexists; split; reflexivity | reflexivity]).
Qed.

Lemma rotation_outcome_witness :
  isMoving initial = false
  /\ isMoving
       (fst (rotateToPosition "supine"
               (Replied {| success := false; detail := EmptyString;
                           data := DNull |}) initial)) = false.
Proof.
  split; [reflexivity|].
  destruct (rotation_outcome "supine"
              (Replied {| success := false; detail := EmptyString;
                          data := DNull |}) initial eq_refl) as [Hstate _].
  rewrite Hstate. reflexivity.
Defined.

(** X2.  isMoving is switched on by nothing but a click on a position
    button that is rendered and enabled: whenever an event takes the
    dashboard from not moving to moving, that event is such a click, the
    dashboard was not emergency-stopped, and the event sent exactly one
    rotation request, for the position of that button. *)
Theorem moving_starts_only_with_a_rotation_request (ev : Event) (st : State) :
  isMoving st = false ->
  isMoving (fst (step ev st)) = true ->
  exists k pos confirmed,
    ev = Click (RotateButton k) confirmed
    /\ nth_error positions k = Some pos
    /\ isEmergencyStopped st = false
    /\ snd (step ev st)
       = [Post "/api/position/rotate"
            (Rotation (value pos) "수동 변환 / Manual rotation")].
Proof.
  intros Hidle Hmoves.
  destruct ev as [ |f| | | |a|c confirmed|a| |resolved|a|a| |socket_open| | | ]; cbn in Hmoves;
    try congruence.
  - destruct f as [|type data]; cbn in Hmoves; [congruence|].
    destruct ((type =? "initial_status")%string
              || (type =? "status_update")%string); cbn in Hmoves;
      [congruence|].
    destruct (type =? "alert")%string; cbn in Hmoves; [congruence|].
    destruct (type =? "emergency_stop")%string; cbn in Hmoves; congruence.
  - destruct a as [|r]; cbn in Hmoves; [congruence|].
    destruct (success r); cbn in Hmoves; congruence.
  - cbn [step] in *.
    destruct (shown c st && negb (disabled c st)) eqn:Hgate;
      [|cbn in Hmoves; congruence].
    destruct c as [k| | | | | ]; cbn in Hmoves; try congruence.
    + destruct (nth_error positions k) as [pos|] eqn:Hk;
        [|cbn in Hmoves; congruence].
      exists k, pos, confirmed.
      cbn in Hgate. rewrite Hidle in Hgate. cbn in Hgate.
      apply andb_prop in Hgate as [_ Hflag].
      apply negb_true_iff in Hflag.
      repeat split; try assumption.
      cbn. rewrite Hk. unfold rotateToPosition_call. now rewrite Hidle.
    + destruct confirmed; cbn in Hmoves; congruence.
  - destruct a as [|r]; cbn in Hmoves; [discriminate|].
    destruct (negb (success r)); cbn in Hmoves; congruence.
  - destruct resolved; cbn in Hmoves; congruence.
  - destruct a as [|r]; cbn in Hmoves; congruence.
  - unfold fetchAiSummary_answer in Hmoves.
    destruct a as [|r]; cbn in Hmoves; [congruence|].
    destruct (success r); [destruct (data r)|]; cbn in Hmoves; congruence.
Qed.

Lemma moving_starts_only_with_a_rotation_request_witness :
  exists k pos confirmed,
    Click (RotateButton 2) true = Click (RotateButton k) confirmed
    /\ nth_error positions k = Some pos
    /\ isEmergencyStopped initial = false
    /\ snd (step (Click (RotateButton 2) true) initial)
       = [Post "/api/position/rotate"
            (Rotation (value pos) "수동 변환 / Manual rotation")].
Proof.
  apply (moving_starts_only_with_a_rotation_request
           (Click (RotateButton 2) true) initial); reflexivity.
Defined.

(** X3.  While the dashboard is emergency-stopped, or shows a movement in
    progress, no event makes it send a rotation request: the position
    buttons are disabled then, and no other handler posts a position. *)
Theorem no_rotation_request_while_stopped_or_moving
    (ev : Event) (st : State) (path position reason : string) :
  isEmergencyStopped st = true \/ isMoving st = true ->
  ~ In (Post path (Rotation position reason)) (snd (step ev st)).
Proof.
  intros Hblocked Hsent.
  assert (Hdis : forall k, disabled (RotateButton k) st = true).
  { intros k. cbn. destruct Hblocked as [H|H]; rewrite H;
      [apply orb_true_r | reflexivity]. }
  destruct ev as [ |f| | | |a|c confirmed|a| |resolved|a|a| |socket_open| | | ]; cbn in Hsent;
    try (intuition discriminate).
  - destruct a as [|r]; cbn in Hsent; [intuition discriminate|].
    destruct (success r); cbn in Hsent; intuition discriminate.
  - cbn [step] in Hsent.
    destruct c as [k| | | | | ].
    + rewrite Hdis, andb_false_r in Hsent. cbn in Hsent. exact Hsent.
    + destruct (shown PauseButton st && negb (disabled PauseButton st));
        cbn in Hsent; intuition discriminate.
    + destruct (shown ResumeButton st && negb (disabled ResumeButton st));
        cbn in Hsent; intuition discriminate.
    + cbn in Hsent. destruct confirmed; cbn in Hsent; intuition discriminate.
    + destruct (shown ResumeAfterEmergencyButton st
                && negb (disabled ResumeAfterEmergencyButton st));
        cbn in Hsent; intuition discriminate.
    + destruct (shown AiButton st && negb (disabled AiButton st));
        cbn in Hsent; intuition discriminate.
  - destruct a as [|r]; cbn in Hsent; [intuition discriminate|].
    destruct (negb (success r)); cbn in Hsent; intuition discriminate.
  - destruct resolved; cbn in Hsent; intuition discriminate.
  - destruct a; cbn in Hsent; intuition discriminate.
  - destruct socket_open; cbn in Hsent; intuition discriminate.
Qed.

Lemma no_rotation_request_while_stopped_or_moving_witness :
  ~ In (Post "/api/position/rotate"
          (Rotation "supine" "수동 변환 / Manual rotation"))
       (snd (step (Click (RotateButton 0) true)
               (set_isEmergencyStopped true initial))).
Proof.
  apply no_rotation_request_while_stopped_or_moving.
  left. reflexivity.
Defined.

(** *** An invariant of the two flags *)

Lemma step_keeps_flags_apart (ev : Event) (st : State) :
  isMoving st && isEmergencyStopped st = false ->
  isMoving (fst (step ev st)) && isEmergencyStopped (fst (step ev st)) = false.
Proof.
  intros Hinv.
  destruct ev as [ |f| | | |a|c confirmed|a| |resolved|a|a| |socket_open| | | ]; cbn;
    try assumption; try reflexivity.
  - destruct f as [|type data]; cbn; [assumption|].
    destruct ((type =? "initial_status")%string
              || (type =? "status_update")%string); cbn; [assumption|].
    destruct (type =? "alert")%string; cbn; [assumption|].
    destruct (type =? "emergency_stop")%string; cbn; [reflexivity|assumption].
  - destruct a as [|r]; cbn; [assumption|].
    destruct (success r); cbn; assumption.
  - destruct (shown c st && negb (disabled c st)) eqn:Hgate; [|assumption].
    destruct c as [k| | | | | ]; cbn; try assumption.
    + destruct (nth_error positions k); [|assumption].
      unfold rotateToPosition_call.
      destruct (isMoving st) eqn:Hm; cbn; [rewrite Hm; exact Hinv|].
      cbn in Hgate. rewrite Hm in Hgate. cbn in Hgate.
      apply andb_prop in Hgate as [_ Hflag].
      now apply negb_true_iff in Hflag.
    + destruct confirmed; cbn; assumption.
    + apply andb_false_r.
  - destruct a as [|r]; cbn; [reflexivity|].
    destruct (negb (success r)); cbn; [reflexivity|assumption].
  - destruct resolved; cbn; [reflexivity|assumption].
  - destruct a; cbn; assumption.
  - unfold fetchAiSummary_answer.
    destruct a as [|r]; cbn; [assumption|].
    destruct (success r); [destruct (data r)|]; cbn; assumption.
Qed.

(** X4.  Whatever happens after the component is mounted, the dashboard
    never shows the moving overlay and the emergency banner together:
    isMoving and isEmergencyStopped are never both set.  More generally
    every sequence of events keeps them apart once they are. *)
Theorem overlay_and_banner_exclude_each_other (evs : list Event) :
  overlay_shown (run evs initial) && banner_shown (run evs initial) = false
  /\ (forall st,
        isMoving st && isEmergencyStopped st = false ->
        isMoving (run evs st) && isEmergencyStopped (run evs st) = false).
Proof.
  assert (Hrun : forall st,
             isMoving st && isEmergencyStopped st = false ->
             isMoving (run evs st) && isEmergencyStopped (run evs st) = false).
  { induction evs as [|ev rest IH]; intros st Hinv; cbn [run].
    - assumption.
    - apply IH. now apply step_keeps_flags_apart. }
  split; [|exact Hrun].
  unfold overlay_shown, banner_shown. apply Hrun. reflexivity.
Qed.

Lemma overlay_and_banner_exclude_each_other_witness :
  isMoving (run [Click (RotateButton 1) true; WsMessage (Msg "emergency_stop" DNull)]
              initial)
  && isEmergencyStopped
       (run [Click (RotateButton 1) true; WsMessage (Msg "emergency_stop" DNull)]
          initial) = false.
Proof.
  apply (overlay_and_banner_exclude_each_other
           [Click (RotateButton 1) true;
            WsMessage (Msg "emergency_stop" DNull)]).
  reflexivity.
Defined.

(** *** The status *)

(** X5.  The stored status is replaced only by a WebSocket message of type
    initial_status or status_update, which stores the message's data, or by
    an answer to the status request that carries success, which stores the
    answer's data.  Every other event, and in particular a status request
    that fails or is answered without success, keeps the last status. *)
Theorem status_replaced_only_by_server_data (ev : Event) (st : State) :
  status (fst (step ev st)) <> status st ->
  (exists type data,
      ev = WsMessage (Msg type data)
      /\ (type = "initial_status" \/ type = "status_update")
      /\ status (fst (step ev st)) = data)
  \/ (exists r,
        ev = StatusAnswer (Replied r)
        /\ success r = true
        /\ status (fst (step ev st)) = data r).
Proof.
  intros Hchanged.
  destruct ev as [ |f| | | |a|c confirmed|a| |resolved|a|a| |socket_open| | | ];
    cbn in Hchanged; try (exfalso; now apply Hchanged).
  - left. destruct f as [|type data]; cbn in Hchanged;
      [exfalso; now apply Hchanged|].
    cbn [step onmessage fst].
    destruct (type =? "initial_status")%string eqn:Hinit.
    + apply String.eqb_eq in Hinit. exists type, data. cbn. auto.
    + destruct (type =? "status_update")%string eqn:Hupd.
      * apply String.eqb_eq in Hupd. exists type, data. cbn. auto.
      * exfalso. apply Hchanged. cbn.
        destruct (type =? "alert")%string; [reflexivity|].
        destruct (type =? "emergency_stop")%string; reflexivity.
  - right. destruct a as [|r]; cbn in Hchanged;
      [exfalso; now apply Hchanged|].
    cbn [step fetchStatus_answer].
    destruct (success r) eqn:Hok; [|exfalso; now apply Hchanged].
    exists r. auto.
  - exfalso. apply Hchanged. cbn [step].
    destruct (shown c st && negb (disabled c st)); [|reflexivity].
    destruct c as [k| | | | | ]; cbn; try reflexivity.
    + destruct (nth_error positions k); [|reflexivity].
      unfold rotateToPosition_call. now destruct (isMoving st).
    + now destruct confirmed.
  - exfalso. apply Hchanged.
    destruct a as [|r]; [reflexivity|]. cbn.
    now destruct (negb (success r)).
  - exfalso. apply Hchanged. now destruct resolved.
  - exfalso. apply Hchanged. now destruct a.
  - exfalso. apply Hchanged. unfold step, fetchAiSummary_answer.
    destruct a as [|r]; [reflexivity|].
    destruct (success r); [destruct (data r)|]; reflexivity.
Qed.

Lemma status_replaced_only_by_server_data_witness :
  (exists type data,
      WsMessage (Msg "status_update" (ticking_status 5000))
      = WsMessage (Msg type data)
      /\ (type = "initial_status" \/ type = "status_update")
      /\ status (fst (step (WsMessage
                              (Msg "status_update" (ticking_status 5000)))
                         initial)) = data)
  \/ (exists r,
        WsMessage (Msg "status_update" (ticking_status 5000))
        = StatusAnswer (Replied r)
        /\ success r = true
        /\ status (fst (step (WsMessage
                                (Msg "status_update" (ticking_status 5000)))
                           initial)) = data r).
Proof.
  apply (status_replaced_only_by_server_data
           (WsMessage (Msg "status_update" (ticking_status 5000))) initial).
  discriminate.
Defined.

(** *** The connection indicator *)

Lemma step_connectionStatus (ev : Event) (st : State) :
  connectionStatus (fst (step ev st))
  = last_socket_event [ev] (connectionStatus st).
Proof.
  destruct ev as [ |f| | | |a|c confirmed|a| |resolved|a|a| |socket_open| | | ]; cbn;
    try reflexivity.
  - destruct f as [|type data]; cbn; [reflexivity|].
    destruct ((type =? "initial_status")%string
              || (type =? "status_update")%string); cbn; [reflexivity|].
    destruct (type =? "alert")%string; cbn; [reflexivity|].
    destruct (type =? "emergency_stop")%string; reflexivity.
  - destruct a as [|r]; cbn; [reflexivity|]. now destruct (success r).
  - destruct (shown c st && negb (disabled c st)); [|reflexivity].
    destruct c as [k| | | | | ]; cbn; try reflexivity.
    + destruct (nth_error positions k); [|reflexivity].
      unfold rotateToPosition_call. now destruct (isMoving st).
    + now destruct confirmed.
  - destruct a as [|r]; cbn; [reflexivity|]. now destruct (negb (success r)).
  - now destruct resolved.
  - now destruct a.
  - unfold fetchAiSummary_answer.
    destruct a as [|r]; [reflexivity|].
    destruct (success r); [destruct (data r)|]; reflexivity.
Qed.

Lemma run_connectionStatus (evs : list Event) : forall st,
  connectionStatus (run evs st)
  = last_socket_event evs (connectionStatus st).
Proof.
  induction evs as [|ev rest IH]; intros st; [reflexivity|].
  cbn [run]. rewrite IH, step_connectionStatus.
  destruct ev; reflexivity.
Qed.

Lemma last_socket_event_quiet (evs : list Event) : forall c,
  Forall (fun ev => ev <> WsOpen /\ ev <> WsClose) evs ->
  last_socket_event evs c = c.
Proof.
  induction evs as [|ev rest IH]; intros c Hquiet; [reflexivity|].
  inversion Hquiet as [|? ? [Hopen Hclose] Hrest]; subst.
  destruct ev; cbn; try (now apply IH); congruence.
Qed.

(** X6.  The connection indicator follows the socket and nothing else: it is
    connected exactly when the last socket event was the opening of the
    socket, disconnected when it was its closing, and no message, click,
    answer or timer in between or afterwards changes it. *)
Theorem connection_follows_the_socket (before after : list Event) (st : State) :
  Forall (fun ev => ev <> WsOpen /\ ev <> WsClose) after ->
  connectionStatus (run (before ++ WsOpen :: after) st) = connected
  /\ connectionStatus (run (before ++ WsClose :: after) st) = disconnected
  /\ connectionStatus (run after st) = connectionStatus st.
Proof.
  intros Hquiet.
  assert (Happ : forall l ev c,
             (ev = WsOpen \/ ev = WsClose) ->
             last_socket_event (l ++ ev :: after) c
             = match ev with WsOpen => connected | _ => disconnected end).
  { induction l as [|e l IH]; intros ev c Hev.
    - destruct Hev; subst; cbn; now apply last_socket_event_quiet.
    - destruct e; cbn; now apply IH. }
  rewrite !run_connectionStatus.
  split; [apply (Happ before WsOpen); auto|].
  split; [apply (Happ before WsClose); auto|].
  now apply last_socket_event_quiet.
Qed.

Lemma connection_follows_the_socket_witness :
  connectionStatus
    (run ([WsOpen; WsClose] ++ WsOpen :: [PollStatus; ClockTick "12:00:00"])
       initial) = connected.
Proof.
  apply (connection_follows_the_socket [WsOpen; WsClose]
           [PollStatus; ClockTick "12:00:00"] initial).
  repeat constructor; discriminate.
Defined.

(** *** The AI summary *)

(** X7.  A summary request always ends with isLoadingAi cleared, whatever
    comes back, so the button cannot stay locked; while the request is under
    way the flag is set and a click on the button does nothing.  A failed
    request, or an answer with success whose data is null, stores the error
    text; an answer without success leaves the previous summary; an answer
    with success stores its summary.  No other ref changes. *)
Theorem ai_request_always_unlocks (a : Answer) (st : State) :
  isLoadingAi (fst (fetchAiSummary a st)) = false
  /\ isLoadingAi (fst (fetchAiSummary_call st)) = true
  /\ (forall confirmed,
        step (Click AiButton confirmed) (fst (fetchAiSummary_call st))
        = (fst (fetchAiSummary_call st), []))
  /\ aiSummary (fst (fetchAiSummary a st))
     = match a with
       | Failed => Some ai_error
       | Replied r =>
           if success r then
             match data r with
             | DNull => Some ai_error
             | DText t => Some t
             | _ => None
             end
           else aiSummary st
       end
  /\ fst (fetchAiSummary a st)
     = set_isLoadingAi false
         (set_aiSummary (aiSummary (fst (fetchAiSummary a st))) st).
Proof.
  unfold fetchAiSummary, fetchAiSummary_call, fetchAiSummary_answer.
  destruct a as [|r]; cbn.
  - repeat split.
  - destruct (success r); [destruct (data r)|]; cbn; repeat split.
Qed.

(** *** Emergency stop that does not get through *)

(** X8.  The emergency-stop handler sends its POST exactly when the operator
    confirms.  When the operator declines, or when the request fails, the
    dashboard is left exactly as it was (a failure is only logged): it does
    not enter the emergency-stopped state on its own.  In no case does the
    handler touch anything but isEmergencyStopped and isMoving. *)
Theorem emergency_stop_changes_nothing_unless_sent_and_answered
    (confirmed resolved : bool) (st : State) :
  (confirmed && resolved = false ->
   fst (triggerEmergencyStop confirmed resolved st) = st)
  /\ (In (Post "/api/emergency-stop" NoBody)
         (snd (triggerEmergencyStop confirmed resolved st))
      <-> confirmed = true)
  /\ (confirmed = true -> resolved = false ->
      snd (triggerEmergencyStop confirmed resolved st)
      = [ConfirmDialog; Post "/api/emergency-stop" NoBody; ConsoleError])
  /\ fst (triggerEmergencyStop confirmed resolved st)
     = set_isMoving
         (isMoving (fst (triggerEmergencyStop confirmed resolved st)))
         (set_isEmergencyStopped
            (isEmergencyStopped
               (fst (triggerEmergencyStop confirmed resolved st))) st).
Proof.
  destruct confirmed, resolved; cbn; destruct st; cbn;
    repeat split; intros; try discriminate; try reflexivity;
    try tauto; intuition discriminate.
Qed.

Lemma emergency_stop_changes_nothing_unless_sent_and_answered_witness :
  fst (triggerEmergencyStop true false (set_isMoving true initial))
  = set_isMoving true initial.
Proof.
  destruct (emergency_stop_changes_nothing_unless_sent_and_answered
              true false (set_isMoving true initial)) as [Hsame _].
  apply Hsame. reflexivity.
Defined.

(** *** Pausing and resuming the schedule *)

(** X9.  The pause and resume buttons never change the dashboard by
    themselves: each sends its POST, and only when that request is answered
    is the status asked for again.  The dashboard changes only if that
    status request is answered with success, and then only its status, which
    becomes the data of the answer; when the POST fails no status is asked
    for, and in every other case nothing changes at all. *)
Theorem schedule_buttons_only_refresh_status (a sa : Answer) (st : State) :
  (a = Failed ->
   pauseSchedule a sa st = (st, [Post "/api/scheduler/pause" EmptyObject])
   /\ resumeSchedule a sa st = (st, [Post "/api/scheduler/resume" NoBody]))
  /\ (a <> Failed ->
      In (Get "/api/status") (snd (pauseSchedule a sa st))
      /\ In (Get "/api/status") (snd (resumeSchedule a sa st)))
  /\ (a <> Failed -> acknowledged sa = false ->
      fst (pauseSchedule a sa st) = st /\ fst (resumeSchedule a sa st) = st)
  /\ (forall rs, a <> Failed -> sa = Replied rs -> success rs = true ->
      fst (pauseSchedule a sa st) = set_status (data rs) st
      /\ fst (resumeSchedule a sa st) = set_status (data rs) st).
Proof.
  unfold pauseSchedule, resumeSchedule.
  destruct a as [|r]; cbn.
  - repeat split; intros; congruence.
  - split; [intros; discriminate|].
    split; [intros _; destruct sa as [|rs]; cbn;
            [|destruct (success rs); cbn]; tauto|].
    split.
    + intros _ Hno. destruct sa as [|rs]; cbn in *; [tauto|].
      rewrite Hno. cbn. tauto.
    + intros rs _ -> Hok. cbn. rewrite Hok. cbn. tauto.
Qed.

Lemma schedule_buttons_only_refresh_status_witness :
  fst (pauseSchedule
         (Replied {| success := true; detail := EmptyString; data := DNull |})
         (Replied {| success := true; detail := EmptyString;
                     data := paused_status (Instant 5000) |})
         initial)
  = set_status (paused_status (Instant 5000)) initial.
Proof.
  destruct (schedule_buttons_only_refresh_status
              (Replied {| success := true; detail := EmptyString;
                          data := DNull |})
              (Replied {| success := true; detail := EmptyString;
                          data := paused_status (Instant 5000) |})
              initial) as [_ [_ [_ Hrefresh]]].
  apply (Hrefresh {| success := true; detail := EmptyString;
                     data := paused_status (Instant 5000) |});
    [discriminate | reflexivity | reflexivity].
Defined.

(** *** What the dashboard sends *)

(** X15.  Whatever the event and the state, the dashboard only ever sends:
    a POST to /api/position/rotate with one of the listed positions and the
    manual-rotation reason, a POST without body to /api/emergency-stop or
    /api/scheduler/resume, a POST with an empty object to
    /api/scheduler/pause, a GET of /api/status or /api/ai/summary, and the
    text ping over the socket.  The only timers it sets are the one of 20
    seconds, on the answer to a rotation request, and the one of 5 seconds
    for the reconnection, when the socket closes; the only intervals are the
    one of 30 seconds for the ping, at mounting and at every reconnection,
    and those of 1 and 5 seconds at mounting. *)
Theorem requests_stay_within_the_api
    (ev : Event) (st : State) (cmd : Command) :
  In cmd (snd (step ev st)) ->
  match cmd with
  | Post path body =>
      (path = "/api/position/rotate"
       /\ exists pos, In pos positions
                      /\ body = Rotation (value pos)
                                         "수동 변환 / Manual rotation")
      \/ (path = "/api/emergency-stop" /\ body = NoBody)
      \/ (path = "/api/scheduler/pause" /\ body = EmptyObject)
      \/ (path = "/api/scheduler/resume" /\ body = NoBody)
  | Get path => path = "/api/status" \/ path = "/api/ai/summary"
  | SocketSend text => text = "ping"
  | SetTimeout ms =>
      (ms = 20000 /\ exists a, ev = RotateAnswer a)
      \/ (ms = 5000 /\ ev = WsClose)
  | SetInterval ms =>
      (ms = 30000 /\ (ev = Mounted \/ ev = ReconnectTimeout))
      \/ ((ms = 1000 \/ ms = 5000) /\ ev = Mounted)
  | ConfirmDialog | AlertDialog _ | ConsoleError
  | OpenSocket | CloseSocket | ClearTimeout | ClearInterval => True
  end.
Proof.
  intros Hsent.
  destruct ev as [ |f| | | |a|c confirmed|a| |resolved|a|a| |socket_open| | | ];
    cbn in Hsent.
  - destruct Hsent as [<-|[]]. exact I.
  - destruct Hsent.
  - destruct Hsent as [<-|[]]. right. split; reflexivity.
  - destruct Hsent.
  - destruct Hsent as [<-|[]]. now left.
  - destruct a as [|r]; cbn in Hsent.
    + destruct Hsent as [<-|[]]. exact I.
    + destruct (success r); cbn in Hsent; tauto.
  - cbn [step] in Hsent.
    destruct (shown c st && negb (disabled c st)); [|cbn in Hsent; tauto].
    destruct c as [k| | | | | ]; cbn [onclick] in Hsent.
    + destruct (nth_error positions k) as [pos|] eqn:Hk;
        [|cbn in Hsent; tauto].
      unfold rotateToPosition_call in Hsent.
      destruct (isMoving st); cbn in Hsent; [tauto|].
      destruct Hsent as [<-|[]]. left. split; [reflexivity|].
      exists pos. split; [|reflexivity].
      eapply nth_error_In. exact Hk.
    + destruct Hsent as [<-|[]]. tauto.
    + destruct Hsent as [<-|[]]. tauto.
    + destruct confirmed; cbn in Hsent;
        [destruct Hsent as [<-|[<-|[]]] | destruct Hsent as [<-|[]]];
        try exact I. tauto.
    + destruct Hsent as [<-|[]]. tauto.
    + destruct Hsent as [<-|[]]. now right.
  - destruct a as [|r]; cbn in Hsent.
    + destruct Hsent as [<-|[]]. exact I.
    + destruct (negb (success r)); cbn in Hsent;
        destruct Hsent as [<-|[]]; [exact I|].
      left. split; [reflexivity|]. now exists (Replied r).
  - destruct Hsent.
  - destruct resolved; cbn in Hsent; [tauto|].
    destruct Hsent as [<-|[]]. exact I.
  - destruct a; cbn in Hsent; [tauto|].
    destruct Hsent as [<-|[]]. now left.
  - destruct Hsent.
  - destruct Hsent as [<-|[<-|[]]]; [exact I|]. left. split; auto.
  - destruct socket_open; cbn in Hsent; [|tauto].
    destruct Hsent as [<-|[]]. reflexivity.
  - destruct Hsent as [<-|[]]. exact I.
  - destruct Hsent as [<-|[<-|[<-|[<-|[<-|[]]]]]];
      [now left | exact I | left; split; auto
      | right; split; auto | right; split; auto].
  - destruct Hsent as [<-|[<-|[<-|[<-|[]]]]]; exact I.
Qed.

Lemma requests_stay_within_the_api_witness :
  (5000 = 20000 /\ exists a, WsClose = RotateAnswer a)
  \/ (5000 = 5000 /\ WsClose = WsClose).
Proof.
  apply (requests_stay_within_the_api WsClose initial (SetTimeout 5000)).
  cbn. left. reflexivity.
Defined.

(** *** Sequences of operations *)

(** X16.  An emergency-stop message followed by the operator's manual
    resume brings the controls back, whatever was going on before: both
    flags are cleared, the moving overlay of a rotation that was under way
    is gone, every position button is enabled again, the resume call has
    been sent, and no other ref has changed. *)
Theorem stop_then_resume_restores_controls
    (data : Data) (confirmed : bool) (st : State) :
  run [WsMessage (Msg "emergency_stop" data);
       Click ResumeAfterEmergencyButton confirmed] st
  = set_isMoving false (set_isEmergencyStopped false st)
  /\ issued [WsMessage (Msg "emergency_stop" data);
             Click ResumeAfterEmergencyButton confirmed] st
     = [Post "/api/scheduler/resume" NoBody]
  /\ (forall k,
        disabled (RotateButton k)
          (run [WsMessage (Msg "emergency_stop" data);
                Click ResumeAfterEmergencyButton confirmed] st) = false).
Proof. repeat split. Qed.

(** X17.  From a dashboard that is neither moving nor emergency-stopped, a
    click on a position button followed by a second click on any position
    button, before the answer to the first has arrived, sends exactly one
    rotation request, the one of the first button; the second click changes
    nothing. *)
Theorem double_click_sends_one_request
    (k j : nat) (pos : PositionItem) (c1 c2 : bool) (st : State) :
  isMoving st = false ->
  isEmergencyStopped st = false ->
  nth_error positions k = Some pos ->
  issued [Click (RotateButton k) c1; Click (RotateButton j) c2] st
  = [Post "/api/position/rotate"
       (Rotation (value pos) "수동 변환 / Manual rotation")]
  /\ run [Click (RotateButton k) c1; Click (RotateButton j) c2] st
     = run [Click (RotateButton k) c1] st
  /\ isMoving (run [Click (RotateButton k) c1; Click (RotateButton j) c2] st)
     = true.
Proof.
  intros Hidle Hclear Hk.
  assert (Hshown : (k <? List.length positions)%nat = true).
  { apply Nat.ltb_lt. apply nth_error_Some. congruence. }
  assert (Hfirst : step (Click (RotateButton k) c1) st
                   = (set_isMoving true st,
                      [Post "/api/position/rotate"
                         (Rotation (value pos)
                                   "수동 변환 / Manual rotation")])).
  { cbn [step shown disabled onclick].
    rewrite Hshown, Hidle, Hclear, Hk. cbn.
    unfold rotateToPosition_call. now rewrite Hidle. }
  assert (Hsecond : step (Click (RotateButton j) c2) (set_isMoving true st)
                    = (set_isMoving true st, [])).
  { cbn [step shown disabled]. cbn [set_isMoving isMoving].
    cbn [orb negb]. now rewrite andb_false_r. }
  cbn [issued run]. rewrite Hfirst. cbn [fst snd]. rewrite Hsecond.
  repeat split.
Qed.

Lemma double_click_sends_one_request_witness :
  issued [Click (RotateButton 1) false; Click (RotateButton 2) false] initial
  = [Post "/api/position/rotate"
       (Rotation "left_lateral" "수동 변환 / Manual rotation")].
Proof.
  apply (double_click_sends_one_request 1 2
           {| value := "left_lateral"; nameKo := "좌측와위 (30°)";
              nameEn := "Left Lateral"; emoji := "↩️" |}
           false false initial); reflexivity.
Defined.

End HandlerFacts.

(* ================================================================== *)
(** ** Properties of the template bindings and utilities *)
(* ================================================================== *)

Module ViewFacts.
Import Dashboard DashboardView.

(** *** Current position card and button highlight *)

Lemma is_current_value (st : State) (p : PositionItem) :
  is_current st p = true ->
  get_current_position (status st) = Some (value p).
Proof.
  unfold is_current. destruct (get_current_position (status st)) as [c|];
    [|discriminate].
  intros H. apply String.eqb_eq in H. now subst.
Qed.

Lemma position_cases (c : string) :
  c = "supine" \/ c = "left_lateral" \/ c = "right_lateral"
  \/ (("supine" =? c)%string = false
      /\ ("left_lateral" =? c)%string = false
      /\ ("right_lateral" =? c)%string = false).
Proof.
  destruct (String.eqb_spec "supine" c) as [<-|_]; [tauto|].
  destruct (String.eqb_spec "left_lateral" c) as [<-|_]; [tauto|].
  destruct (String.eqb_spec "right_lateral" c) as [<-|_]; tauto.
Qed.

(** X10.  The current-position card and the highlight of the position
    buttons always agree.  The card shows one of the three position emojis
    or the question mark; at most one button is highlighted; a highlighted
    button is the one whose emoji the card shows, and its value is the
    status's current position; the card shows the question mark exactly when
    no button is highlighted (no status yet, or a position that is not in
    the list). *)
Theorem position_card_agrees_with_highlight (st : State) :
  In (currentPositionEmoji st) ["🛏️"; "↩️"; "↪️"; "❓"]
  /\ (forall k, highlighted k st = true ->
        exists pos, nth_error positions k = Some pos
                    /\ currentPositionEmoji st = emoji pos
                    /\ get_current_position (status st) = Some (value pos))
  /\ (forall j k, highlighted j st = true -> highlighted k st = true -> j = k)
  /\ (currentPositionEmoji st = "❓" <-> forall k, highlighted k st = false).
Proof.
  unfold currentPositionEmoji, highlighted, is_current.
  destruct (get_current_position (status st)) as [c|].
  - destruct (position_cases c) as [-> | [-> | [-> | Hother]]].
    + split; [cbn; tauto|].
      split; [intros [|[|[|[|k]]]] Hk; try discriminate Hk;
              eexists; repeat split; reflexivity|].
      split; [intros [|[|[|[|j]]]] [|[|[|[|k]]]] Hj Hk;
              try discriminate Hj; try discriminate Hk; reflexivity|].
      split; [intros Hq; discriminate Hq|].
      intros Hnone. specialize (Hnone 0%nat). discriminate Hnone.
    + split; [cbn; tauto|].
      split; [intros [|[|[|[|k]]]] Hk; try discriminate Hk;
              eexists; repeat split; reflexivity|].
      split; [intros [|[|[|[|j]]]] [|[|[|[|k]]]] Hj Hk;
              try discriminate Hj; try discriminate Hk; reflexivity|].
      split; [intros Hq; discriminate Hq|].
      intros Hnone. specialize (Hnone 1%nat). discriminate Hnone.
    + split; [cbn; tauto|].
      split; [intros [|[|[|[|k]]]] Hk; try discriminate Hk;
              eexists; repeat split; reflexivity|].
      split; [intros [|[|[|[|j]]]] [|[|[|[|k]]]] Hj Hk;
              try discriminate Hj; try discriminate Hk; reflexivity|].
      split; [intros Hq; discriminate Hq|].
      intros Hnone. specialize (Hnone 2%nat). discriminate Hnone.
    + destruct Hother as [H0 [H1 H2]].
      assert (Hnone : forall k,
                 match nth_error positions k with
                 | Some pos => (value pos =? c)%string
                 | None => false
                 end = false).
      { intros [|[|[|[|k]]]]; cbn [nth_error positions value];
          rewrite ?H0, ?H1, ?H2; reflexivity. }
      cbn [find positions value]. rewrite H0, H1, H2.
      split; [cbn; tauto|].
      split; [intros k Hk; rewrite Hnone in Hk; discriminate|].
      split; [intros j k Hj; rewrite Hnone in Hj; discriminate|].
      split; [intros _; exact Hnone | reflexivity].
  - cbn. split; [tauto|].
    split; [intros k Hk; destruct (nth_error positions k); discriminate|].
    split; [intros j k Hj; destruct (nth_error positions j); discriminate|].
    split; [|reflexivity].
    intros _ k. now destruct (nth_error positions k).
Qed.

Lemma position_card_agrees_with_highlight_witness :
  exists pos, nth_error positions 0 = Some pos
              /\ currentPositionEmoji (set_status (ticking_status 0) initial)
                 = emoji pos
              /\ get_current_position
                   (status (set_status (ticking_status 0) initial))
                 = Some (value pos).
Proof.
  destruct (position_card_agrees_with_highlight
              (set_status (ticking_status 0) initial)) as [_ [Hhi _]].
  apply (Hhi 0%nat). reflexivity.
Defined.

(** *** The status indicator *)

(** X11.  In every state the header indicator carries exactly one of the
    green and the red class: green when the socket is connected and no
    emergency stop is active, red otherwise.  The yellow class of a paused
    schedule does not replace them: while paused the indicator carries two
    colour classes at once. *)
Theorem indicator_is_green_or_red (st : State) :
  bg_green st = negb (bg_red st)
  /\ (bg_green st = true
      <-> connectionStatus st = connected /\ isEmergencyStopped st = false)
  /\ (bg_yellow st = true ->
      (bg_green st && bg_yellow st) || (bg_red st && bg_yellow st) = true).
Proof.
  unfold bg_green, bg_red, bg_yellow.
  destruct (connectionStatus st), (isEmergencyStopped st),
    (get_is_paused (status st)); cbn;
    repeat split; intros; try tauto; try discriminate;
    intuition discriminate.
Qed.

Lemma indicator_is_green_or_red_witness :
  (bg_green (set_status (paused_status Absent) (onopen initial))
   && bg_yellow (set_status (paused_status Absent) (onopen initial)))
  || (bg_red (set_status (paused_status Absent) (onopen initial))
      && bg_yellow (set_status (paused_status Absent) (onopen initial)))
  = true.
Proof.
  destruct (indicator_is_green_or_red
              (set_status (paused_status Absent) (onopen initial)))
    as [_ [_ Hboth]].
  apply Hboth. reflexivity.
Defined.

(** *** The socket address *)

Lemma starts_with_app (p : string) : forall s t,
  (String.length p <= String.length s)%nat ->
  starts_with p (s ++ t) = starts_with p s.
Proof.
  induction p as [|a p IH]; intros s t Hlen; [reflexivity|].
  destruct s as [|b s]; cbn in Hlen; [lia|].
  cbn. rewrite IH by lia. reflexivity.
Qed.

Lemma string_app_assoc (a b c : string) : (a ++ b) ++ c = a ++ (b ++ c).
Proof. induction a as [|x a IH]; cbn; [reflexivity | now rewrite IH]. Qed.

Lemma string_length_app (a b : string) :
  String.length (a ++ b) = (String.length a + String.length b)%nat.
Proof. induction a as [|x a IH]; cbn; [reflexivity | now rewrite IH]. Qed.

Lemma replace_first_occurrence (before : string) : forall after,
  occurs "http" (before ++ "htt") = false ->
  replace "http" "ws" (before ++ "http" ++ after) = before ++ "ws" ++ after.
Proof.
  induction before as [|c before IH]; intros after Hfirst; [reflexivity|].
  cbn [occurs append] in Hfirst.
  apply orb_false_elim in Hfirst as [Hhere Hlater].
  change (String c before ++ "http" ++ after)
    with (String c (before ++ "http" ++ after)).
  assert (Hnot : starts_with "http" (String c (before ++ "http" ++ after))
                 = false).
  { transitivity (starts_with "http" (String c (before ++ "htt")));
      [|exact Hhere].
    replace (String c (before ++ "http" ++ after))
      with (String c (before ++ "htt") ++ ("p" ++ after)).
    - apply starts_with_app. cbn [String.length].
      rewrite string_length_app. cbn. lia.
    - cbn [append]. f_equal. now rewrite string_app_assoc. }
  cbn [replace]. rewrite Hnot, IH by assumption. reflexivity.
Qed.

Lemma replace_without_occurrence (s : string) :
  occurs "http" s = false -> replace "http" "ws" s = s.
Proof.
  induction s as [|c s IH]; intros Hnone; [reflexivity|].
  cbn [occurs] in Hnone. apply orb_false_elim in Hnone as [Hhere Hlater].
  cbn [replace]. rewrite Hhere, IH by assumption. reflexivity.
Qed.

(** X12.  The socket address is the API base with its first http turned
    into ws, followed by /ws: the text before that first occurrence and
    everything after it are kept, so http://host becomes ws://host/ws and
    https://host becomes wss://host/ws.  A base without any http is used as
    it is.  Without a configured base, or with an empty one, the address is
    ws://localhost:8000/ws. *)
Theorem socket_address_keeps_host_and_security (before after : string) :
  occurs "http" (before ++ "htt") = false ->
  wsUrl (before ++ "http" ++ after) = before ++ "ws" ++ after ++ "/ws"
  /\ wsUrl ("http" ++ after) = "ws" ++ after ++ "/ws"
  /\ wsUrl ("https" ++ after) = "wss" ++ after ++ "/ws"
  /\ (occurs "http" after = false -> wsUrl after = after ++ "/ws")
  /\ wsUrl (API_BASE None) = "ws://localhost:8000/ws"
  /\ wsUrl (API_BASE (Some EmptyString)) = "ws://localhost:8000/ws".
Proof.
  intros Hfirst. unfold wsUrl.
  split.
  - rewrite replace_first_occurrence by assumption.
    now rewrite !string_app_assoc.
  - split; [reflexivity|].
    split; [reflexivity|].
    split; [|split; reflexivity].
    intros Hnone. now rewrite replace_without_occurrence.
Qed.

Lemma socket_address_keeps_host_and_security_witness :
  wsUrl ("" ++ "http" ++ "s://carebot.local/http")
  = "" ++ "ws" ++ "s://carebot.local/http" ++ "/ws".
Proof.
  apply (socket_address_keeps_host_and_security
           "" "s://carebot.local/http").
  reflexivity.
Defined.

(** *** Log row helpers *)

(** X13.  For every level name that is not the name of a member inherited
    from Object.prototype, the two log helpers answer with texts and agree:
    the levels info, warning, critical and error get their own emoji and
    row class, every other level gets the bullet and the empty class, and
    the bullet goes with the empty class and with no other.  A level named
    like an inherited member gets that member from both helpers instead of
    the fallback. *)
Theorem log_helpers_agree (level : string) :
  (existsb (String.eqb level) inherited_keys = false ->
   exists e c,
     logLevelEmoji level = Text e
     /\ logRowClass level = Text c
     /\ In e ["✅"; "⚠️"; "🚨"; "❌"; "•"]
     /\ (e = "•" <-> c = EmptyString)
     /\ (e = "•" <-> ~ In level ["info"; "warning"; "critical"; "error"]))
  /\ (existsb (String.eqb level) inherited_keys = true ->
      logLevelEmoji level = InheritedMember level
      /\ logRowClass level = InheritedMember level).
Proof.
  unfold logLevelEmoji, logRowClass, lookup_or.
  destruct (String.eqb_spec "info" level) as [<-|Hinfo].
  { split; [intros _|intros H; discriminate H].
    eexists _, _. cbn. repeat split; try reflexivity; try tauto;
      intros H; try discriminate H; exfalso; apply H; tauto. }
  destruct (String.eqb_spec "warning" level) as [<-|Hwarn].
  { split; [intros _|intros H; discriminate H].
    eexists _, _. cbn. repeat split; try reflexivity; try tauto;
      intros H; try discriminate H; exfalso; apply H; tauto. }
  destruct (String.eqb_spec "critical" level) as [<-|Hcrit].
  { split; [intros _|intros H; discriminate H].
    eexists _, _. cbn. repeat split; try reflexivity; try tauto;
      intros H; try discriminate H; exfalso; apply H; tauto. }
  destruct (String.eqb_spec "error" level) as [<-|Herr].
  { split; [intros _|intros H; discriminate H].
    eexists _, _. cbn. repeat split; try reflexivity; try tauto;
      intros H; try discriminate H; exfalso; apply H; tauto. }
  assert (Hown : forall table,
             Forall (fun kv => In (fst kv)
                                  ["info"; "warning"; "critical"; "error"])
                    table ->
             own table level = None).
  { induction table as [|[k v] rest IH]; intros Hkeys; [reflexivity|].
    inversion Hkeys as [|? ? Hk Hrest]; subst. cbn [own].
    destruct (String.eqb_spec k level) as [->|_]; [|now apply IH].
    cbn in Hk. intuition congruence. }
  rewrite !Hown by (repeat constructor; cbn; tauto).
  split; intros Hkey; rewrite Hkey.
  - exists "•", EmptyString. cbn.
    repeat split; try reflexivity; tauto.
  - split; reflexivity.
Qed.

Lemma log_helpers_agree_witness :
  exists e c,
    logLevelEmoji "debug" = Text e
    /\ logRowClass "debug" = Text c
    /\ In e ["✅"; "⚠️"; "🚨"; "❌"; "•"]
    /\ (e = "•" <-> c = EmptyString)
    /\ (e = "•" <-> ~ In "debug" ["info"; "warning"; "critical"; "error"]).
Proof.
  destruct (log_helpers_agree "debug") as [Hplain _].
  apply Hplain. reflexivity.
Defined.

(** *** Reading the countdown back *)

Lemma digits_then_colon (s : string) : forall d t,
  NilEmpty.uint_of_string s = Some d ->
  split_colon (s ++ ":" ++ t) = Some (s, t).
Proof.
  induction s as [|a s IH]; intros d t Hdigits; [reflexivity|].
  cbn [NilEmpty.uint_of_string] in Hdigits.
  destruct (NilEmpty.uint_of_string s) as [d'|] eqn:Hrest;
    [|discriminate Hdigits].
  specialize (IH d' t eq_refl).
  apply uint_of_char_spec in Hdigits.
  cbn [append split_colon].
  replace (Ascii.eqb a ":") with false
    by (destruct Hdigits as [[-> _]|[[-> _]|[[-> _]|[[-> _]|[[-> _]|
        [[-> _]|[[-> _]|[[-> _]|[[-> _]|[-> _]]]]]]]]]]; reflexivity).
  change (s ++ String ":" t) with (s ++ ":" ++ t). now rewrite IH.
Qed.

Lemma digits_read_as_number (s : string) (d : Decimal.uint) :
  s <> EmptyString ->
  NilEmpty.uint_of_string s = Some d ->
  NilZero.int_of_string s = Some (Decimal.Pos d).
Proof.
  intros Hne Hdigits. destruct s as [|a s]; [contradiction|].
  cbn [NilEmpty.uint_of_string] in Hdigits.
  destruct (NilEmpty.uint_of_string s) as [d'|] eqn:Hrest;
    [|discriminate Hdigits].
  apply uint_of_char_spec in Hdigits.
  unfold NilZero.int_of_string, NilZero.uint_of_string.
  cbn [NilEmpty.uint_of_string]. rewrite Hrest.
  destruct Hdigits as [[-> ->]|[[-> ->]|[[-> ->]|[[-> ->]|[[-> ->]|
        [[-> ->]|[[-> ->]|[[-> ->]|[[-> ->]|[-> ->]]]]]]]]]]; reflexivity.
Qed.

Lemma zeros_in_front (k : nat) : forall s d,
  NilEmpty.uint_of_string s = Some d ->
  exists d', NilEmpty.uint_of_string (Js.repeat_char "0" k ++ s) = Some d'
             /\ Z.of_uint d' = Z.of_uint d.
Proof.
  induction k as [|k IH]; intros s d Hdigits.
  - exists d. split; [exact Hdigits | reflexivity].
  - destruct (IH s d Hdigits) as [d' [Hd' Hval]].
    exists (Decimal.D0 d'). cbn [Js.repeat_char append NilEmpty.uint_of_string].
    rewrite Hd'. split; [reflexivity | exact Hval].
Qed.

Lemma pad2_reads_back (n : Z) :
  0 <= n ->
  exists d, NilEmpty.uint_of_string (pad2 n) = Some d
            /\ NilZero.int_of_string (pad2 n) = Some (Decimal.Pos d)
            /\ Z.of_uint d = n.
Proof.
  intros Hn.
  assert (Hstr : exists u, Js.String_of n = NilEmpty.string_of_uint u
                           /\ u <> Decimal.Nil /\ Z.of_uint u = n).
  { unfold Js.String_of. destruct n as [|p|p]; [| |lia].
    - exists (Decimal.D0 Decimal.Nil). repeat split. discriminate.
    - exists (Pos.to_uint p). cbn [Z.to_int NilZero.string_of_int].
      pose proof (Unsigned.to_uint_nonnil p) as Hnn.
      split; [|split; [exact Hnn|]].
      + unfold NilZero.string_of_uint. destruct (Pos.to_uint p);
          [contradiction|reflexivity..].
      + change (Z.of_int (Decimal.Pos (Pos.to_uint p)) = Z.pos p).
        change (Decimal.Pos (Pos.to_uint p)) with (Z.to_int (Z.pos p)).
        apply DecimalZ.of_to. }
  destruct Hstr as [u [Hu [Hnn Hval]]].
  unfold pad2, Js.padStart. rewrite Hu.
  destruct (zeros_in_front (2 - String.length (NilEmpty.string_of_uint u))
              (NilEmpty.string_of_uint u) u (NilEmpty.usu u))
    as [d [Hd Hdval]].
  exists d. split; [exact Hd|]. split; [|congruence].
  apply digits_read_as_number; [|exact Hd].
  destruct u; try contradiction;
    destruct (2 - _)%nat as [|k]; cbn; discriminate.
Qed.

Lemma countdown_text_reads (m s : Z) :
  0 <= m -> 0 <= s ->
  read_countdown (pad2 m ++ ":" ++ pad2 s) = Some (m, s).
Proof.
  intros Hm Hs.
  destruct (pad2_reads_back m Hm) as [dm [Hdm [Him Hvm]]].
  destruct (pad2_reads_back s Hs) as [ds [_ [His Hvs]]].
  unfold read_countdown.
  rewrite (digits_then_colon (pad2 m) dm (pad2 s) Hdm), Him, His.
  cbn [Z.of_int]. now rewrite Hvm, Hvs.
Qed.

Lemma minutes_seconds_of_whole_seconds (diff : Z) :
  0 <= diff ->
  diff / 60000 = diff / 1000 / 60
  /\ diff mod 60000 / 1000 = (diff / 1000) mod 60.
Proof. intros Hdiff. split; Z.to_euclidean_division_equations; lia. Qed.

(** X14.  The text of a running countdown can be read back: the digits
    before the colon are the whole minutes that remain and the digits after
    it the remaining seconds.  So two running countdowns show the same text
    exactly when the same number of whole seconds remains; the display never
    shows one text for two different remaining times (in seconds), whatever
    the number of minutes. *)
Theorem countdown_text_reads_back (now next : Z) (st : State) :
  get_next_rotation_time (status st) = Instant next ->
  get_is_paused (status st) = false ->
  read_countdown (nextRotationCountdown now st)
  = Some (Z.max 0 (next - now) / 60000, Z.max 0 (next - now) mod 60000 / 1000)
  /\ (forall now' next' st',
        get_next_rotation_time (status st') = Instant next' ->
        get_is_paused (status st') = false ->
        (nextRotationCountdown now st = nextRotationCountdown now' st'
         <-> Z.max 0 (next - now) / 1000 = Z.max 0 (next' - now') / 1000)).
Proof.
  intros Hnext Hrun.
  assert (Hread : forall n x s,
             get_next_rotation_time (status s) = Instant x ->
             get_is_paused (status s) = false ->
             read_countdown (nextRotationCountdown n s)
             = Some (Z.max 0 (x - n) / 60000,
                     Z.max 0 (x - n) mod 60000 / 1000)).
  { intros n x s Hx Hs.
    rewrite (DashboardFacts.countdown_instant n x s Hx Hs).
    apply countdown_text_reads.
    - apply Z.div_pos; lia.
    - apply Z.div_pos; [apply Z.mod_pos_bound|]; lia. }
  split; [now apply Hread|].
  intros now' next' st' Hnext' Hrun'.
  destruct (minutes_seconds_of_whole_seconds (Z.max 0 (next - now))
              ltac:(lia)) as [Hm Hs].
  destruct (minutes_seconds_of_whole_seconds (Z.max 0 (next' - now'))
              ltac:(lia)) as [Hm' Hs'].
  split.
  - intros Hsame.
    pose proof (Hread now next st Hnext Hrun) as H1.
    pose proof (Hread now' next' st' Hnext' Hrun') as H2.
    rewrite Hsame, H2 in H1. injection H1 as Hmins Hsecs.
    rewrite Hm, Hm' in Hmins. rewrite Hs, Hs' in Hsecs.
    rewrite (Z.div_mod (Z.max 0 (next - now) / 1000) 60) by lia.
    rewrite (Z.div_mod (Z.max 0 (next' - now') / 1000) 60) by lia.
    congruence.
  - intros Hsame.
    rewrite (DashboardFacts.countdown_instant now next st Hnext Hrun).
    rewrite (DashboardFacts.countdown_instant now' next' st' Hnext' Hrun').
    rewrite Hm, Hm', Hs, Hs', Hsame. reflexivity.
Qed.

Lemma countdown_text_reads_back_witness :
  read_countdown
    (nextRotationCountdown 1000 (set_status (ticking_status 7265000) initial))
  = Some (121, 4).
Proof.
  destruct (countdown_text_reads_back 1000 7265000
              (set_status (ticking_status 7265000) initial)
              eq_refl eq_refl) as [Hread _].
  exact Hread.
Defined.

End ViewFacts.
